(** * weblist: the HTTP front end of a cloud-storage account (src/api.py)

    A shallow embedding of [Pan123API] and of the request handlers that
    use it, followed by the properties of the session, of the path walk
    and of the size formatter.

    Conventions.
    - Python values that travel through JSON (the settings document,
      request bodies, replies) are values of [json].
    - The object [api], the settings file on disk and the module level
      [lock] form one record, [World]; every method is a function
      [World -> Outcome A].
    - [threading.Lock] is not reentrant: acquiring it while it is held
      does not return.  The outcome [Blocked] stands for that. *)

From Stdlib Require Import ZArith String Ascii List Bool Lia DecimalString.
Import ListNotations.

Set Warnings "-register-all".

Local Open Scope list_scope.
Local Open Scope string_scope.
Local Open Scope Z_scope.

(* ================================================================== *)
(** ** Python values *)

Module Py.

(** JSON documents as [json.load] returns them.  Number literals with a
    fraction or an exponent are left out: no code path below computes
    with them. *)
Inductive json : Type :=
| JNull
| JBool (b : bool)
| JInt (z : Z)
| JStr (s : string)
| JArr (items : list json)
| JObj (members : list (string * json)).

(** Exceptions: the class and [str(e)]. *)
Inductive ErrKind : Type :=
| Exception | TypeError | ValueError | AttributeError | IndexError | KeyError
| UnicodeDecodeError.

Record PyErr : Type := mkErr { kind : ErrKind; message : string }.

(** [bool(v)]: what [if v] and [not v] test. *)
Definition truthy (v : json) : bool :=
  match v with
  | JNull => false
  | JBool b => b
  | JInt z => negb (z =? 0)
  | JStr s => negb (s =? "")%string
  | JArr items => match items with [] => false | _ => true end
  | JObj members => match members with [] => false | _ => true end
  end.

(** [type(v).__name__] *)
Definition type_name (v : json) : string :=
  match v with
  | JNull => "NoneType"
  | JBool _ => "bool"
  | JInt _ => "int"
  | JStr _ => "str"
  | JArr _ => "list"
  | JObj _ => "dict"
  end.

(** [str(n)] for an [int]. *)
Definition str_of_int (z : Z) : string := NilZero.string_of_int (Z.to_int z).

(** *** Dictionaries

    A [dict] keeps insertion order; a key that is set again keeps its
    place (and the key object first inserted).  Keys compare as Python
    compares hashable values: [True == 1] and [False == 0]. *)
Definition dict : Type := list (json * json).

Definition key_num (k : json) : option Z :=
  match k with
  | JBool b => Some (if b then 1 else 0)
  | JInt z => Some z
  | _ => None
  end.

Definition key_eqb (a b : json) : bool :=
  match a, b with
  | JNull, JNull => true
  | JStr x, JStr y => (x =? y)%string
  | _, _ =>
      match key_num a, key_num b with
      | Some x, Some y => x =? y
      | _, _ => false
      end
  end.

Definition hashable (k : json) : bool :=
  match k with
  | JArr _ | JObj _ => false
  | _ => true
  end.

Fixpoint dict_get (k : json) (d : dict) : option json :=
  match d with
  | [] => None
  | (k', v) :: rest => if key_eqb k' k then Some v else dict_get k rest
  end.

Fixpoint dict_set (k v : json) (d : dict) : dict :=
  match d with
  | [] => [(k, v)]
  | (k', v') :: rest =>
      if key_eqb k' k then (k', v) :: rest else (k', v') :: dict_set k v rest
  end.

(** [obj.get(name)] and [name in obj] on a JSON object (string keys; the
    last of several equal members is the one the parser keeps). *)
Fixpoint obj_get (name : string) (members : list (string * json)) : option json :=
  match members with
  | [] => None
  | (k, v) :: rest =>
      match obj_get name rest with
      | Some v' => Some v'
      | None => if (k =? name)%string then Some v else None
      end
  end.

Definition obj_has (name : string) (members : list (string * json)) : bool :=
  match obj_get name members with Some _ => true | None => false end.

(** The characters of a [str], the text being held as UTF-8: a byte
    [10xxxxxx] continues the character before it. *)
Definition continuation (c : ascii) : bool :=
  let n := N_of_ascii c in ((128 <=? n) && (n <? 192))%N.

Fixpoint chars (s : string) : list string :=
  match s with
  | EmptyString => []
  | String c rest =>
      match chars rest with
      | h :: t =>
          match rest with
          | String c' _ =>
              if continuation c' then String c h :: t
              else String c "" :: h :: t
          | EmptyString => String c "" :: h :: t
          end
      | [] => [String c ""]
      end
  end.

(** The distinct keys of an object, in the order a [dict] built from the
    members lists them. *)
Fixpoint distinct_keys (seen : list string) (members : list (string * json))
  : list string :=
  match members with
  | [] => []
  | (k, _) :: rest =>
      if existsb (String.eqb k) seen then distinct_keys seen rest
      else k :: distinct_keys (k :: seen) rest
  end.

(** One element of the iterable handed to [dict.update], read as a
    key/value pair: [list(item)] must have length two. *)
Definition update_len_error (i : nat) (n : nat) : PyErr :=
  mkErr ValueError
    ("dictionary update sequence element #" ++ str_of_int (Z.of_nat i)
     ++ " has length " ++ str_of_int (Z.of_nat n) ++ "; 2 is required").

Definition as_pair (i : nat) (item : json) : PyErr + (json * json) :=
  let not_a_sequence :=
    mkErr TypeError
      ("cannot convert dictionary update sequence element #"
       ++ str_of_int (Z.of_nat i) ++ " to a sequence") in
  match item with
  | JNull | JBool _ | JInt _ => inl not_a_sequence
  | JArr [k; v] => inr (k, v)
  | JArr xs => inl (update_len_error i (length xs))
  | JStr s =>
      match chars s with
      | [a; b] => inr (JStr a, JStr b)
      | cs => inl (update_len_error i (length cs))
      end
  | JObj members =>
      match distinct_keys [] members with
      | [a; b] => inr (JStr a, JStr b)
      | ks => inl (update_len_error i (length ks))
      end
  end.

(** The pairs are set one by one: what was set before a bad element
    stays set. *)
Fixpoint update_pairs (i : nat) (items : list json) (d : dict)
  : dict * option PyErr :=
  match items with
  | [] => (d, None)
  | item :: rest =>
      match as_pair i item with
      | inl e => (d, Some e)
      | inr (k, v) =>
          if hashable k then update_pairs (S i) rest (dict_set k v d)
          else (d, Some (mkErr TypeError ("unhashable type: '" ++ type_name k ++ "'")))
      end
  end.

(** [d.update(v)]: a mapping is merged key by key; anything else is
    iterated as a sequence of pairs; a value that cannot be iterated is
    a [TypeError].  The result is the dictionary as the call leaves it
    and the exception it raised, if any. *)
Definition dict_update (d : dict) (v : json) : dict * option PyErr :=
  match v with
  | JObj members =>
      (fold_left (fun acc kv => dict_set (JStr (fst kv)) (snd kv) acc) members d,
       None)
  | JArr items => update_pairs 0 items d
  | JStr s => update_pairs 0 (map JStr (chars s)) d
  | JNull | JBool _ | JInt _ =>
      (d, Some (mkErr TypeError ("'" ++ type_name v ++ "' object is not iterable")))
  end.

(** [json.dump] writes a key that is not a string as text. *)
Definition dump_key (k : json) : string :=
  match k with
  | JStr s => s
  | JInt z => str_of_int z
  | JBool true => "true"
  | JBool false => "false"
  | _ => "null"
  end.

Definition dump (d : dict) : json :=
  JObj (map (fun kv => (dump_key (fst kv), snd kv)) d).

(** *** [str.split("/")] and the comprehension [[p for p in ... if p]] *)
Fixpoint split (sep : ascii) (s : string) : list string :=
  match s with
  | EmptyString => [""]
  | String c rest =>
      if Ascii.eqb c sep then "" :: split sep rest
      else match split sep rest with
           | h :: t => String c h :: t
           | [] => [String c ""]
           end
  end.

Definition nonempty (p : string) : bool := negb (p =? "")%string.

(** *** Floats

    [a / b] on two [int]s is the binary64 number nearest the quotient.
    The divisors of this program are powers of two, so the quotient is
    the float nearest [a], scaled: it is kept as the exact fraction
    [fnum / fden].  [round(x, 2)] is the nearest multiple of 0.01, ties
    to even on the exact value of [x]; it is kept as its number of
    hundredths, and [repr] prints it with one or two decimals.  (Plain
    decimals are what [repr] prints up to fifteen significant digits,
    which covers every byte count below [2^63].) *)
Definition round_half_even (n d : Z) : Z :=
  let q := n / d in
  let r := n mod d in
  if 2 * r <? d then q
  else if d <? 2 * r then q + 1
  else if Z.even q then q else q + 1.

Definition float_of_int (n : Z) : Z :=
  if n <? 2 ^ 53 then n
  else let e := Z.log2 n - 52 in round_half_even n (2 ^ e) * 2 ^ e.

Record pyfloat : Type := mkFloat { fnum : Z; fden : Z }.

Definition truediv (a b : Z) : pyfloat := mkFloat (float_of_int a) b.

Definition round2 (x : pyfloat) : Z := round_half_even (100 * fnum x) (fden x).

Definition repr_hundredths (q : Z) : string :=
  let f := q mod 100 in
  str_of_int (q / 100) ++ "." ++
  (if f mod 10 =? 0 then str_of_int (f / 10)
   else if f <? 10 then "0" ++ str_of_int f
   else str_of_int f).

End Py.

Import Py.

(* ================================================================== *)
(** ** The storage client *)

(** Modelled from the spec: a directory entry of the client library
    ([pan123], not part of the sources): kind ([Type' = 1] is a folder),
    identifier, name and size in bytes. *)
Record Item : Type := mkItem {
  Type' : Z;
  FileId : Z;
  FileName : string;
  Size : Z
}.

(** Modelled from the spec: the client handle of [pan123] (credentials,
    token, directory cursor, last fetched listing).  [obj_id] is the
    identity of the Python object: two handles built by two calls of the
    constructor differ in it. *)
Record Pan123 : Type := mkPan {
  obj_id : nat;
  user_name : json;
  password : json;
  authorization : json;
  parent_file_id : Z;
  pan_list : list Item
}.

(** Modelled from the spec: the remote side, as the capability interface
    of the spec's design notes: [authenticate] (status code and token),
    [listChildren], [getLink] and [share] (an exception, or a status
    code and a share URL). *)
Record Backend : Type := mkBackend {
  authenticate : json -> json -> json -> Z * json;
  listChildren : Z -> list Item;
  getLink : Item -> string;
  share_remote : json -> PyErr + (Z * json)
}.

(** The remote calls, in the order they are issued. *)
Inductive Call : Type :=
| CallLogin (handle : nat)
| CallGetDir (dir : Z)
| CallLink (idx : nat)
| CallShare (file_id : json).

(** What [settings.json] holds: bytes that are not UTF-8 text (reading
    raises [UnicodeDecodeError]), text that is not JSON ([json.load]
    raises [JSONDecodeError]), or a JSON document. *)
Inductive FileContent : Type :=
| NotText (why : string)
| NotJson
| Document (v : json).

(* ================================================================== *)
(** ** The world and its monad *)

Record World : Type := mkWorld {
  config : dict;                       (* api.config *)
  pan : option Pan123;                 (* api.pan *)
  settings : option FileContent;       (* settings.json, [None]: no file *)
  lock : bool;                         (* the module level lock is held *)
  next_obj : nat;                      (* identity of the next handle *)
  calls : list Call                    (* remote calls so far *)
}.

Definition set_config (c : dict) (w : World) : World :=
  mkWorld c (pan w) (settings w) (lock w) (next_obj w) (calls w).
Definition set_pan (p : option Pan123) (w : World) : World :=
  mkWorld (config w) p (settings w) (lock w) (next_obj w) (calls w).
Definition set_settings (f : option FileContent) (w : World) : World :=
  mkWorld (config w) (pan w) f (lock w) (next_obj w) (calls w).
Definition set_lock (b : bool) (w : World) : World :=
  mkWorld (config w) (pan w) (settings w) b (next_obj w) (calls w).
Definition set_next_obj (n : nat) (w : World) : World :=
  mkWorld (config w) (pan w) (settings w) (lock w) n (calls w).
Definition log_call (c : Call) (w : World) : World :=
  mkWorld (config w) (pan w) (settings w) (lock w) (next_obj w)
          (calls w ++ [c])%list.

Inductive Outcome (A : Type) : Type :=
| Ret (a : A) (w : World)        (* returned [a] *)
| Raise (e : PyErr) (w : World)  (* raised [e] *)
| Blocked (w : World).           (* waits for the lock, for ever *)

Arguments Ret {A} a w.
Arguments Raise {A} e w.
Arguments Blocked {A} w.

Definition M (A : Type) : Type := World -> Outcome A.

Definition ret {A} (a : A) : M A := fun w => Ret a w.

Definition bind {A B} (c : M A) (k : A -> M B) : M B :=
  fun w =>
    match c w with
    | Ret a w' => k a w'
    | Raise e w' => Raise e w'
    | Blocked w' => Blocked w'
    end.

Notation "x <- c ;; k" := (bind c (fun x => k))
  (at level 61, c at next level, right associativity).
Notation "c ;;; k" := (bind c (fun _ => k))
  (at level 61, right associativity).

Definition raise {A} (e : PyErr) : M A := fun w => Raise e w.
Definition gets {A} (f : World -> A) : M A := fun w => Ret (f w) w.
Definition modify (f : World -> World) : M unit := fun w => Ret tt (f w).

(** The world an outcome leaves behind. *)
Definition world_of {A} (o : Outcome A) : World :=
  match o with
  | Ret _ w | Raise _ w | Blocked w => w
  end.

(** [with lock: body].  The lock is released when the body returns or
    raises; a body that blocks keeps it. *)
Definition with_lock {A} (body : M A) : M A :=
  fun w =>
    if lock w then Blocked w
    else match body (set_lock true w) with
         | Ret a w' => Ret a (set_lock false w')
         | Raise e w' => Raise e (set_lock false w')
         | Blocked w' => Blocked w'
         end.

(** [try: body / except Exception as e: handler(e)] *)
Definition try_except {A} (body : M A) (handler : PyErr -> M A) : M A :=
  fun w =>
    match body w with
    | Raise e w' => handler e w'
    | o => o
    end.

(** [self.pan.attr]: [self.pan] is [None] until the first login. *)
Definition the_pan (attr : string) : M Pan123 :=
  fun w =>
    match pan w with
    | Some p => Ret p w
    | None =>
        Raise (mkErr AttributeError
                 ("'NoneType' object has no attribute '" ++ attr ++ "'")) w
    end.

(** [self.config[key]] *)
Definition config_item (key : string) : M json :=
  fun w =>
    match dict_get (JStr key) (config w) with
    | Some v => Ret v w
    | None => Raise (mkErr KeyError ("'" ++ key ++ "'")) w
    end.

Definition config_set (key : string) (v : json) : M unit :=
  modify (fun w => set_config (dict_set (JStr key) v (config w)) w).

(* ================================================================== *)
(** ** [class Pan123API] *)

Module Pan123API.

Section WithBackend.

Variable B : Backend.

(** Modelled from the spec: the constructor of the client handle, built
    from the three credentials, at the account root with no listing. *)
Definition Pan123_new (id : nat) (user pass auth : json) : Pan123 :=
  mkPan id user pass auth 0 [].

(** Modelled from the spec: [pan.login()] asks the backend to
    authenticate, keeps the token on the handle and gives the status. *)
Definition pan_login : M Z :=
  p <- the_pan "login" ;;
  let '(code, token) :=
    authenticate B (user_name p) (password p) (authorization p) in
  modify (fun w =>
    log_call (CallLogin (obj_id p))
      (set_pan (Some (mkPan (obj_id p) (user_name p) (password p) token
                            (parent_file_id p) (pan_list p))) w)) ;;;
  ret code.

(** [self.pan.parent_file_id = d] *)
Definition set_parent_file_id (d : Z) : M unit :=
  p <- the_pan "parent_file_id" ;;
  modify (set_pan (Some (mkPan (obj_id p) (user_name p) (password p)
                               (authorization p) d (pan_list p)))).

(** Modelled from the spec: [pan.get_dir()] fetches the listing of the
    directory under the cursor into [pan.list].  The call is taken to
    return: an exception raised inside the client (the network, the
    remote service) is outside this model, and every property below is
    about runs in which the client's calls return. *)
Definition get_dir : M unit :=
  p <- the_pan "get_dir" ;;
  modify (fun w =>
    log_call (CallGetDir (parent_file_id p))
      (set_pan (Some (mkPan (obj_id p) (user_name p) (password p)
                            (authorization p) (parent_file_id p)
                            (listChildren B (parent_file_id p)))) w)).

(** Modelled from the spec: [pan.link(idx)] gives the download link of
    the item at [idx] of the last fetched listing.  As for [get_dir],
    the remote call is taken to return; only an index outside the
    listing makes it raise. *)
Definition link (idx : nat) : M string :=
  p <- the_pan "link" ;;
  match nth_error (pan_list p) idx with
  | Some item => modify (log_call (CallLink idx)) ;;; ret (getLink B item)
  | None => raise (mkErr IndexError "list index out of range")
  end.

Definition default_config : dict :=
  [ (JStr "default-path", JStr ""); (JStr "user", JStr "");
    (JStr "password", JStr ""); (JStr "authorization", JStr "") ].

(** [_load_config]: the defaults, updated with the settings document
    when the file exists and parses; [JSONDecodeError] is the one
    exception that is passed over. *)
Definition _load_config : M unit :=
  modify (set_config default_config) ;;;
  file <- gets settings ;;
  match file with
  | None => ret tt
  | Some (NotText why) => raise (mkErr UnicodeDecodeError why)
  | Some NotJson => ret tt
  | Some (Document v) =>
      c <- gets config ;;
      let '(c', err) := dict_update c v in
      modify (set_config c') ;;;
      match err with
      | Some e => raise e
      | None => ret tt
      end
  end.

(** [_save_config]: the credentials and the token of the handle go into
    the configuration, which is written to the settings file. *)
Definition _save_config : M unit :=
  p <- the_pan "user_name" ;;
  config_set "user" (user_name p) ;;;
  config_set "password" (password p) ;;;
  config_set "authorization" (authorization p) ;;;
  c <- gets config ;;
  modify (set_settings (Some (Document (dump c)))).

(** [_find_folder_by_name]: moves the cursor to [parent_id], fetches its
    listing and returns the first folder named [name]. *)
Definition is_folder_named (name : string) (item : Item) : bool :=
  (Type' item =? 1) && (FileName item =? name)%string.

Definition _find_folder_by_name (parent_id : Z) (name : string)
  : M (option Item) :=
  set_parent_file_id parent_id ;;;
  get_dir ;;;
  p <- the_pan "list" ;;
  ret (find (is_folder_named name) (pan_list p)).

Definition path_parts (path : string) : list string :=
  filter nonempty (split "/" path).

(** The loop of [_validate_default_path]. *)
Fixpoint validate_parts (parts : list string) (current_dir : Z) : M unit :=
  match parts with
  | [] => ret tt
  | part :: rest =>
      dir_info <- _find_folder_by_name current_dir part ;;
      match dir_info with
      | None => raise (mkErr Exception "主目录不合法")
      | Some item => validate_parts rest (FileId item)
      end
  end.

Definition _validate_default_path : M unit :=
  default_path <- config_item "default-path" ;;
  if truthy default_path then
    match default_path with
    | JStr s => validate_parts (path_parts s) 0
    | v => raise (mkErr AttributeError
                    ("'" ++ type_name v ++ "' object has no attribute 'split'"))
    end
  else ret tt.

(** [login]: the new handle is installed first, then authenticated. *)
Definition login : M unit :=
  with_lock (
    user <- config_item "user" ;;
    pass <- config_item "password" ;;
    auth <- config_item "authorization" ;;
    id <- gets next_obj ;;
    modify (fun w => set_next_obj (S id)
                       (set_pan (Some (Pan123_new id user pass auth)) w)) ;;;
    login_code <- pan_login ;;
    if negb (login_code =? 200) then
      raise (mkErr Exception ("登录失败，错误码: " ++ str_of_int login_code))
    else
      p <- the_pan "authorization" ;;
      config_set "authorization" (authorization p) ;;;
      _save_config ;;;
      _validate_default_path).

(** [__init__] *)
Definition __init__ : M unit :=
  _load_config ;;;
  modify (set_pan None) ;;;
  login.

(** [_format_size] *)
Definition _format_size (size : Z) : string :=
  if size >? 1073741824 then
    repr_hundredths (round2 (truediv size 1073741824)) ++ "GB"
  else if size >? 1048576 then
    repr_hundredths (round2 (truediv size 1048576)) ++ "MB"
  else if size >? 1024 then
    repr_hundredths (round2 (truediv size 1024)) ++ "KB"
  else
    str_of_int size ++ "B".

(** The two lists that [list] builds from [pan.list]. *)
Definition folder_entry (item : Item) : json :=
  JObj [ ("id", JStr (str_of_int (FileId item)));
         ("name", JStr (FileName item)) ].

Definition file_entry (item : Item) : json :=
  JObj [ ("id", JStr (str_of_int (FileId item)));
         ("name", JStr (FileName item));
         ("size", JStr (_format_size (Size item))) ].

Definition listing (items : list Item) : json :=
  JObj [ ("folder",
          JArr (map folder_entry (filter (fun i => Type' i =? 1) items)));
         ("file",
          JArr (map file_entry (filter (fun i => negb (Type' i =? 1)) items))) ].

(** [list] (named [list_] here) *)
Definition list_ : M json :=
  with_lock (
    get_dir ;;;
    p <- the_pan "list" ;;
    ret (listing (pan_list p))).

Definition not_found : json := JObj [ ("error", JStr "没有找到对应文件夹或文件") ].
Definition file_not_found : json := JObj [ ("error", JStr "没有找到对应文件") ].

(** The loop shared by [list_folder] and [parsing]: [None] when a
    segment names no folder (the loop is left by [return]), else the
    identifier reached. *)
Fixpoint walk (parts : list string) (current_id : Z) : M (option Z) :=
  match parts with
  | [] => ret (Some current_id)
  | part :: rest =>
      dir_info <- _find_folder_by_name current_id part ;;
      match dir_info with
      | None => ret None
      | Some item => walk rest (FileId item)
      end
  end.

(** [list_folder] *)
Definition list_folder (path : string) : M json :=
  with_lock (
    let parts := path_parts path in
    p <- the_pan "parent_file_id" ;;
    r <- walk parts (parent_file_id p) ;;
    match r with
    | None => ret not_found
    | Some current_id =>
        set_parent_file_id current_id ;;;
        get_dir ;;;
        list_
    end).

(** The index of the first item of the listing that is a file named
    [file_name]: the [enumerate] loop of [parsing]. *)
Fixpoint find_file (file_name : string) (idx : nat) (items : list Item)
  : option nat :=
  match items with
  | [] => None
  | item :: rest =>
      if negb (Type' item =? 1) && (FileName item =? file_name)%string
      then Some idx
      else find_file file_name (S idx) rest
  end.

(** [parsing] *)
Definition parsing (file_path : string) : M json :=
  with_lock (
    let parts := path_parts file_path in
    p <- the_pan "parent_file_id" ;;
    r <- walk (removelast parts) (parent_file_id p) ;;
    match r with
    | None => ret not_found
    | Some current_id =>
        set_parent_file_id current_id ;;;
        get_dir ;;;
        match rev parts with
        | [] => raise (mkErr IndexError "list index out of range")
        | file_name :: _ =>
            p' <- the_pan "list" ;;
            match find_file file_name 0 (pan_list p') with
            | Some idx =>
                download_url <- link idx ;;
                ret (JObj [ ("url", JStr download_url) ])
            | None => ret file_not_found
            end
        end
    end).

(** [reload_session] *)
Definition reload_session : M json :=
  try_except
    (login ;;;
     ret (JObj [ ("status", JStr "success"); ("message", JStr "会话已重新加载") ]))
    (fun e => ret (JObj [ ("error", JStr (message e)) ])).

(** [share] *)
Definition share (file_id : json) : M json :=
  with_lock (
    try_except
      (the_pan "share" ;;;
       modify (log_call (CallShare file_id)) ;;;
       match share_remote B file_id with
       | inl e => raise e
       | inr (code, share_url) =>
           if code =? 200 then ret (JObj [ ("url", share_url) ])
           else ret (JObj [ ("error", JStr "分享失败") ])
       end)
      (fun e => ret (JObj [ ("error", JStr (message e)) ]))).

End WithBackend.

End Pan123API.

(* ================================================================== *)
(** ** The request handlers *)

Module Handlers.

Import Pan123API.

Section WithBackend.

Variable B : Backend.

(** A reply: the body given to [jsonify] and the status code. *)
Definition Response : Type := (json * Z)%type.

(** [data.get(name)] on the parsed request body. *)
Definition body_get (data : json) (name : string) : M json :=
  match data with
  | JObj members =>
      ret (match obj_get name members with Some v => v | None => JNull end)
  | v => raise (mkErr AttributeError
                  ("'" ++ type_name v ++ "' object has no attribute 'get'"))
  end.

(** ['error' in result] *)
Definition has_error (result : json) : bool :=
  match result with
  | JObj members => obj_has "error" members
  | _ => false
  end.

Definition error_body (e : PyErr) : json := JObj [ ("error", JStr (message e)) ].

(** [POST /api/login] *)
Definition login (data : json) : M Response :=
  username <- body_get data "username" ;;
  password <- body_get data "password" ;;
  (if truthy username && truthy password then
     config_set "user" username ;;;
     config_set "password" password ;;;
     _save_config
   else ret tt) ;;;
  try_except
    (Pan123API.login B ;;; ret (JObj [ ("status", JStr "success") ], 200))
    (fun e => ret (error_body e, 401)).

(** [GET /api/list] *)
Definition list_files : M Response :=
  try_except
    (result <- list_ B ;; ret (result, 200))
    (fun e => ret (error_body e, 500)).

(** [GET /api/list/<path:sub_path>] *)
Definition list_subfolder (sub_path : string) : M Response :=
  try_except
    (result <- list_folder B sub_path ;;
     if has_error result then ret (result, 404) else ret (result, 200))
    (fun e => ret (error_body e, 500)).

(** [GET /api/parsing/<path:file_path>] *)
Definition get_download_link (file_path : string) : M Response :=
  try_except
    (result <- parsing B file_path ;;
     if has_error result then ret (result, 404) else ret (result, 200))
    (fun e => ret (error_body e, 500)).

(** [POST /api/share] *)
Definition share_file (data : json) : M Response :=
  file_id <- body_get data "file_id" ;;
  if negb (truthy file_id) then
    ret (JObj [ ("error", JStr "缺少file_id参数") ], 400)
  else
    try_except
      (result <- share B file_id ;;
       if has_error result then ret (result, 400) else ret (result, 200))
      (fun e => ret (error_body e, 500)).

End WithBackend.

End Handlers.

(* ================================================================== *)
(** ** The path walk, read off the backend tree *)

Module Walk.

Import Pan123API.

Section WithBackend.

Variable B : Backend.

(** The handle once [_find_folder_by_name] has looked into [d]. *)
Definition at_dir (p : Pan123) (d : Z) : Pan123 :=
  mkPan (obj_id p) (user_name p) (password p) (authorization p) d
        (listChildren B d).

(** The directories the loop lists, in order, for the segments [parts]
    from [d]: it stops at the first segment that names no folder. *)
Fixpoint listed (parts : list string) (d : Z) : list Z :=
  match parts with
  | [] => []
  | part :: rest =>
      d :: match find (is_folder_named part) (listChildren B d) with
           | None => []
           | Some item => listed rest (FileId item)
           end
  end.

(** The identifier the loop reaches, if every segment names a folder. *)
Fixpoint resolve (parts : list string) (d : Z) : option Z :=
  match parts with
  | [] => Some d
  | part :: rest =>
      match find (is_folder_named part) (listChildren B d) with
      | None => None
      | Some item => resolve rest (FileId item)
      end
  end.

(** The world after the directories [ds] were listed one after the
    other through the handle [p]. *)
Definition moved (w : World) (p : Pan123) (ds : list Z) : World :=
  match ds with
  | [] => w
  | d0 :: rest =>
      mkWorld (config w) (Some (at_dir p (last rest d0))) (settings w)
              (lock w) (next_obj w) (calls w ++ map CallGetDir ds)%list
  end.

End WithBackend.

End Walk.

(** The directory cursor of the session, if there is one. *)
Definition cursor (w : World) : option Z :=
  match pan w with
  | Some p => Some (parent_file_id p)
  | None => None
  end.

(** What a call returned, if it returned. *)
Definition returned {A} (o : Outcome A) : option A :=
  match o with
  | Ret a _ => Some a
  | _ => None
  end.

(** Two calls ended the same way: the same value returned, the same
    exception raised, or both blocked. *)
Definition same_result {A} (o1 o2 : Outcome A) : Prop :=
  match o1, o2 with
  | Ret a _, Ret b _ => a = b
  | Raise e _, Raise e' _ => e = e'
  | Blocked _, Blocked _ => True
  | _, _ => False
  end.

(** A path made of slashes only (the empty path among them). *)
Fixpoint only_slashes (path : string) : bool :=
  match path with
  | EmptyString => true
  | String c rest => Ascii.eqb c "/" && only_slashes rest
  end.

(* ================================================================== *)
(** ** A small account, for the examples *)

Module Sample.

(** /a/b/c (folders 1, 2, 3), a file [notes.txt] at the root, a file
    [f.bin] in [a/b], and in [a] a file that is called [b] like the
    folder next to it. *)
Definition tree (d : Z) : list Item :=
  if d =? 0 then [ mkItem 0 9 "notes.txt" 1025; mkItem 1 1 "a" 0 ]
  else if d =? 1 then [ mkItem 0 8 "b" 1024; mkItem 1 2 "b" 0 ]
  else if d =? 2 then [ mkItem 1 3 "c" 0; mkItem 0 7 "f.bin" 1073741825 ]
  else [].

Definition backend : Backend :=
  mkBackend
    (fun user pass auth =>
       match pass with
       | JStr "secret" => (200, JStr "Bearer t1")
       | _ => (401, JStr "")
       end)
    tree
    (fun item => "https://dl.example/" ++ str_of_int (FileId item))
    (fun file_id => inr (200, JStr "https://share.example/s1")).

Definition good_config : dict :=
  [ (JStr "default-path", JStr ""); (JStr "user", JStr "alice");
    (JStr "password", JStr "secret"); (JStr "authorization", JStr "Bearer t1") ].

Definition bad_config : dict :=
  [ (JStr "default-path", JStr ""); (JStr "user", JStr "alice");
    (JStr "password", JStr "wrong"); (JStr "authorization", JStr "Bearer t1") ].

Definition handle : Pan123 :=
  mkPan 0 (JStr "alice") (JStr "secret") (JStr "Bearer t1") 0 [].

(** A session after a successful login, at the account root. *)
Definition world : World :=
  mkWorld good_config (Some handle) (Some (Document (dump good_config)))
          false 1 [].

(** The same session once the password in the configuration went stale. *)
Definition stale_world : World :=
  mkWorld bad_config (Some handle) (Some (Document (dump good_config)))
          false 1 [].

(** Process start, [file] being what the settings file holds. *)
Definition boot (file : option FileContent) : World :=
  mkWorld [] None file false 0 [].

End Sample.

(* ================================================================== *)
(** ** The reload handler, and notions used by the properties below *)

Module ReloadHandler.

Import Pan123API Handlers.

Section WithBackend.

Variable B : Backend.

(** [POST /api/reload] *)
Definition reload_session : M Response :=
  try_except
    (result <- Pan123API.reload_session B ;;
     if has_error result then ret (result, 400) else ret (result, 200))
    (fun e => ret (error_body e, 500)).

End WithBackend.

End ReloadHandler.

(** A number of hundredths as the specification words it, "rounded to
    2 decimal places" and printed as Python prints a float: the whole
    part, the point, the digit of the tenths, and the digit of the
    hundredths unless it is zero. *)
Definition two_decimals (q : Z) : string :=
  str_of_int (q / 100) ++ "." ++ str_of_int (q mod 100 / 10)
  ++ (if q mod 10 =? 0 then "" else str_of_int (q mod 10)).

(** The loop of [list], as it is written: each item is appended to
    [folders] or to [files]. *)
Definition list_loop (items : list Item) : list json * list json :=
  fold_left
    (fun acc item =>
       if Type' item =? 1
       then (fst acc ++ [Pan123API.folder_entry item], snd acc)%list
       else (fst acc, snd acc ++ [Pan123API.file_entry item])%list)
    items ([], []).

(** The test of the [enumerate] loop of [parsing]: a non-folder with
    exactly this name. *)
Definition is_file_named (name : string) (item : Item) : bool :=
  negb (Type' item =? 1) && (FileName item =? name)%string.

(** A dictionary as Python keeps it: no key twice. *)
Fixpoint dict_wf (d : dict) : bool :=
  match d with
  | [] => true
  | (k, _) :: rest =>
      negb (existsb (fun kv => key_eqb k (fst kv)) rest) && dict_wf rest
  end.

(** All keys are strings, as in every dictionary read from a JSON
    object. *)
Definition string_keys (d : dict) : bool :=
  forallb (fun kv => match fst kv with JStr _ => true | _ => false end) d.

(** A computation that neither waits for the lock nor changes it. *)
Definition lock_neutral {A} (c : M A) : Prop :=
  forall w,
    match c w with
    | Blocked _ => False
    | o => lock (world_of o) = lock w
    end.

(** A call that came back (returned or raised) with the lock free. *)
Definition came_back_unlocked {A} (o : Outcome A) : Prop :=
  match o with
  | Blocked _ => False
  | o => lock (world_of o) = false
  end.

(** The configuration after [login] copied the token and [_save_config]
    ran, and the world in which [login] then starts to validate the
    default path. *)
Module AfterLogin.

Definition saved (c : dict) (user pass token : json) : dict :=
  dict_set (JStr "authorization") token
    (dict_set (JStr "password") pass
       (dict_set (JStr "user") user
          (dict_set (JStr "authorization") token c))).

Definition authenticated (w : World) (user pass token : json) : World :=
  mkWorld (saved (config w) user pass token)
          (Some (mkPan (next_obj w) user pass token 0 []))
          (Some (Document (dump (saved (config w) user pass token))))
          true (S (next_obj w))
          (calls w ++ [CallLogin (next_obj w)])%list.

End AfterLogin.

(** The configuration after the login handler stored the posted
    credentials [u] and [pw] and [_save_config] ran on the handle [p]. *)
Definition saved_by_handler (c : dict) (u pw : json) (p : Pan123) : dict :=
  dict_set (JStr "authorization") (authorization p)
    (dict_set (JStr "password") (password p)
       (dict_set (JStr "user") (user_name p)
          (dict_set (JStr "password") pw
             (dict_set (JStr "user") u c)))).

(** More sessions on the sample account. *)
Module Sample2.

(** The session after a login that the backend refused: the handle
    holds the stale password and no token. *)
Definition refused_handle : Pan123 :=
  mkPan 1 (JStr "alice") (JStr "wrong") (JStr "") 0 [].

Definition refused_world : World :=
  mkWorld Sample.bad_config (Some refused_handle)
          (Some (Document (dump Sample.good_config))) false 2
          [CallLogin 1].

(** A configuration whose default path is [a/b]. *)
Definition rooted_config : dict :=
  [ (JStr "default-path", JStr "a/b"); (JStr "user", JStr "alice");
    (JStr "password", JStr "secret"); (JStr "authorization", JStr "") ].

Definition rooted_world : World :=
  mkWorld rooted_config None None false 0 [].

(** A configuration whose default path names a folder that is not
    there. *)
Definition lost_config : dict :=
  [ (JStr "default-path", JStr "a/x"); (JStr "user", JStr "alice");
    (JStr "password", JStr "secret"); (JStr "authorization", JStr "") ].

Definition lost_world : World :=
  mkWorld lost_config None None false 0 [].

End Sample2.

(* ================================================================== *)
(** ** Running the walk *)

Module WalkFacts.

Import Pan123API Walk.

Section WithBackend.

Variable B : Backend.

Lemma last_cons {A} (l : list A) (a d : A) : last (a :: l) d = last l a.
Proof.
  revert a d; induction l as [|b l IH]; intros a d; [reflexivity|].
  change (last (a :: b :: l) d) with (last (b :: l) d).
  rewrite (IH b d), (IH b a). reflexivity.
Qed.

Lemma moved_cons (w : World) (p : Pan123) (d : Z) (ds : list Z) :
  moved B (moved B w p [d]) (at_dir B p d) ds = moved B w p (d :: ds).
Proof.
  destruct ds as [|d0 rest]; [reflexivity|].
  unfold moved, at_dir; cbn [config pan settings lock next_obj calls
    obj_id user_name password authorization map].
  rewrite last_cons, <- app_assoc. reflexivity.
Qed.

Lemma moved_snoc (w : World) (p p' : Pan123) (ds : list Z) (d : Z) :
  pan w = Some p ->
  pan (moved B w p ds) = Some p' ->
  moved B (moved B w p ds) p' [d] = moved B w p (ds ++ [d]).
Proof.
  intros Hp Hp'. destruct ds as [|d0 rest].
  - cbn in Hp'. rewrite Hp in Hp'. injection Hp' as <-. reflexivity.
  - cbn [moved pan] in Hp'. injection Hp' as <-.
    unfold moved, at_dir; cbn [config pan settings lock next_obj calls
      obj_id user_name password authorization map app last].
    rewrite map_app, <- app_assoc.
    replace (last (rest ++ [d]) d0) with d by (symmetry; apply last_last).
    reflexivity.
Qed.

Lemma pan_moved (w : World) (p : Pan123) (ds : list Z) :
  pan w = Some p ->
  exists p', pan (moved B w p ds) = Some p'
             /\ parent_file_id p' = last ds (parent_file_id p).
Proof.
  intros Hp. destruct ds as [|d0 rest].
  - exists p. split; [exact Hp | reflexivity].
  - exists (at_dir B p (last rest d0)). split; [reflexivity|].
    rewrite last_cons. reflexivity.
Qed.

(** One look into a directory. *)
Lemma find_folder_run (d : Z) (name : string) (w : World) (p : Pan123) :
  pan w = Some p ->
  _find_folder_by_name B d name w
  = Ret (find (is_folder_named name) (listChildren B d)) (moved B w p [d]).
Proof.
  intros Hp.
  unfold _find_folder_by_name, set_parent_file_id, get_dir, bind, the_pan,
    modify, ret.
  rewrite Hp. reflexivity.
Qed.

(** The loop returns what [resolve] computes and lists what [listed]
    lists. *)
Lemma walk_run (parts : list string) :
  forall (d : Z) (w : World) (p : Pan123),
    pan w = Some p ->
    walk B parts d w = Ret (resolve B parts d) (moved B w p (listed B parts d)).
Proof.
  induction parts as [|part rest IH]; intros d w p Hp; [reflexivity|].
  cbn [walk resolve listed]. unfold bind.
  rewrite (find_folder_run d part w p Hp).
  destruct (find (is_folder_named part) (listChildren B d)) as [item|].
  - rewrite (IH (FileId item) (moved B w p [d]) (at_dir B p d) eq_refl).
    rewrite moved_cons. reflexivity.
  - reflexivity.
Qed.

(** The tail of [list_folder] and [parsing]: the cursor is set and the
    directory fetched. *)
Lemma enter_run {A} (d : Z) (k : M A) (w : World) (p : Pan123) :
  pan w = Some p ->
  (set_parent_file_id d ;;; (get_dir B ;;; k)) w = k (moved B w p [d]).
Proof.
  intros Hp. unfold set_parent_file_id, get_dir, bind, the_pan, modify.
  rewrite Hp. reflexivity.
Qed.

Lemma lock_moved (w : World) (p : Pan123) (ds : list Z) :
  lock (moved B w p ds) = lock w.
Proof. destruct ds; reflexivity. Qed.

Lemma calls_moved (w : World) (p : Pan123) (ds : list Z) :
  calls (moved B w p ds) = (calls w ++ map CallGetDir ds)%list.
Proof. destruct ds; [symmetry; apply app_nil_r | reflexivity]. Qed.

Lemma cursor_moved (w : World) (p : Pan123) (ds : list Z) :
  pan w = Some p ->
  cursor (moved B w p ds) = Some (last ds (parent_file_id p)).
Proof.
  intros Hp. unfold cursor.
  destruct (pan_moved w p ds Hp) as [p' [-> ->]]. reflexivity.
Qed.

(** [list] on a free lock. *)
Lemma list_run (w : World) (p : Pan123) :
  pan w = Some p -> lock w = false ->
  list_ B w
  = Ret (listing (listChildren B (parent_file_id p)))
        (set_lock false (moved B (set_lock true w) p [parent_file_id p])).
Proof.
  intros Hp Hl. unfold list_, with_lock. rewrite Hl.
  unfold get_dir, bind, the_pan, modify, ret. cbn [pan set_lock].
  rewrite Hp. reflexivity.
Qed.

(** [list] on a lock that is held. *)
Lemma list_blocked (w : World) : lock w = true -> list_ B w = Blocked w.
Proof. intros Hl. unfold list_, with_lock. rewrite Hl. reflexivity. Qed.

(** [list_folder], case by case. *)
Lemma list_folder_run (path : string) (w : World) (p : Pan123) :
  pan w = Some p -> lock w = false ->
  list_folder B path w
  = let ds := listed B (path_parts path) (parent_file_id p) in
    match resolve B (path_parts path) (parent_file_id p) with
    | Some id => Blocked (moved B (set_lock true w) p (ds ++ [id]))
    | None => Ret not_found (set_lock false (moved B (set_lock true w) p ds))
    end.
Proof.
  intros Hp Hl. unfold list_folder, with_lock. rewrite Hl.
  assert (Hp1 : pan (set_lock true w) = Some p) by exact Hp.
  unfold bind at 1. unfold the_pan at 1. rewrite Hp1.
  unfold bind at 1. rewrite (walk_run _ _ _ p Hp1).
  cbv zeta.
  destruct (resolve B (path_parts path) (parent_file_id p)) as [id|];
    [|reflexivity].
  set (w1 := moved B (set_lock true w) p _).
  destruct (pan_moved (set_lock true w) p
              (listed B (path_parts path) (parent_file_id p)) Hp1)
    as [p1 [Hp1' _]].
  fold w1 in Hp1'.
  rewrite (enter_run id (list_ B) w1 p1 Hp1').
  rewrite list_blocked
    by (rewrite lock_moved; unfold w1; rewrite lock_moved; reflexivity).
  unfold w1. rewrite (moved_snoc _ p p1 _ id Hp1 Hp1'). reflexivity.
Qed.

(** [parsing], case by case. *)
Lemma parsing_run (path : string) (w : World) (p : Pan123) :
  pan w = Some p -> lock w = false ->
  parsing B path w
  = let parts := path_parts path in
    let ds := listed B (removelast parts) (parent_file_id p) in
    match resolve B (removelast parts) (parent_file_id p) with
    | None => Ret not_found (set_lock false (moved B (set_lock true w) p ds))
    | Some id =>
        let w2 := moved B (set_lock true w) p (ds ++ [id]) in
        match rev parts with
        | [] => Raise (mkErr IndexError "list index out of range")
                      (set_lock false w2)
        | file_name :: _ =>
            match find_file file_name 0 (listChildren B id) with
            | None => Ret file_not_found (set_lock false w2)
            | Some idx =>
                match nth_error (listChildren B id) idx with
                | Some item =>
                    Ret (JObj [ ("url", JStr (getLink B item)) ])
                        (set_lock false (log_call (CallLink idx) w2))
                | None => Raise (mkErr IndexError "list index out of range")
                                (set_lock false w2)
                end
            end
        end
    end.
Proof.
  intros Hp Hl. unfold parsing, with_lock. rewrite Hl.
  assert (Hp1 : pan (set_lock true w) = Some p) by exact Hp.
  unfold bind at 1. unfold the_pan at 1. rewrite Hp1.
  unfold bind at 1. rewrite (walk_run _ _ _ p Hp1).
  cbv zeta.
  destruct (resolve B (removelast (path_parts path)) (parent_file_id p))
    as [id|]; [|reflexivity].
  set (ds := listed B _ _).
  destruct (pan_moved (set_lock true w) p ds Hp1) as [p1 [Hp1' _]].
  rewrite (enter_run id _ _ p1 Hp1').
  rewrite (moved_snoc _ p p1 _ id Hp1 Hp1').
  destruct (rev (path_parts path)) as [|file_name rest]; [reflexivity|].
  assert (Hp2 : pan (moved B (set_lock true w) p (ds ++ [id]))
                = Some (at_dir B p id)).
  { destruct (ds ++ [id])%list as [|d0 r] eqn:E.
    - destruct ds; discriminate E.
    - cbn [moved pan].
      replace (last r d0) with (last (d0 :: r) 0) by apply last_cons.
      rewrite <- E, last_last. reflexivity. }
  unfold bind at 1. unfold the_pan at 1. rewrite Hp2.
  cbn [pan_list at_dir].
  destruct (find_file file_name 0 (listChildren B id)) as [idx|];
    [|reflexivity].
  unfold bind at 1. unfold link. unfold bind at 1. unfold the_pan at 1.
  rewrite Hp2. cbn [pan_list at_dir].
  destruct (nth_error (listChildren B id) idx); reflexivity.
Qed.

End WithBackend.

End WalkFacts.

(* ================================================================== *)
(** ** Paths and segments *)

Module PathFacts.

Import Pan123API Walk.

(** A path of slashes has no segment. *)
Lemma split_only_slashes (path : string) :
  only_slashes path = true ->
  Forall (fun p => p = "") (split "/" path).
Proof.
  induction path as [|c rest IH]; intros H.
  - repeat constructor.
  - cbn [only_slashes] in H. apply andb_true_iff in H as [Hc Hrest].
    cbn [split]. rewrite Hc. constructor; [reflexivity | exact (IH Hrest)].
Qed.

Lemma path_parts_only_slashes (path : string) :
  only_slashes path = true -> path_parts path = [].
Proof.
  intros H. unfold path_parts.
  induction (split_only_slashes path H) as [|p l Hp _ IH]; [reflexivity|].
  cbn [filter]. rewrite Hp. exact IH.
Qed.

Section WithBackend.

Variable B : Backend.

Lemma resolve_app (pre rest : list string) :
  forall d,
    resolve B (pre ++ rest) d
    = match resolve B pre d with
      | Some d' => resolve B rest d'
      | None => None
      end.
Proof.
  induction pre as [|part pre IH]; intros d; [reflexivity|].
  cbn [app resolve].
  destruct (find (is_folder_named part) (listChildren B d)); [apply IH | reflexivity].
Qed.

Lemma listed_app (pre rest : list string) :
  forall d,
    listed B (pre ++ rest) d
    = (listed B pre d ++ match resolve B pre d with
                          | Some d' => listed B rest d'
                          | None => []
                          end)%list.
Proof.
  induction pre as [|part pre IH]; intros d; [reflexivity|].
  cbn [app resolve listed].
  destruct (find (is_folder_named part) (listChildren B d));
    [rewrite IH|]; reflexivity.
Qed.

(** While the segments resolve, each costs one listing. *)
Lemma length_listed (pre : list string) :
  forall d d', resolve B pre d = Some d' -> length (listed B pre d) = length pre.
Proof.
  induction pre as [|part pre IH]; intros d d' H; [reflexivity|].
  cbn [resolve] in H. cbn [listed length].
  destruct (find (is_folder_named part) (listChildren B d)); [|discriminate].
  f_equal. exact (IH _ _ H).
Qed.

(** A match is a folder that has exactly the name asked for. *)
Lemma is_folder_named_iff (name : string) (item : Item) :
  is_folder_named name item = true <-> Type' item = 1 /\ FileName item = name.
Proof.
  unfold is_folder_named. rewrite andb_true_iff, Z.eqb_eq, String.eqb_eq.
  reflexivity.
Qed.

Lemma find_folder_none (name : string) (items : list Item) :
  (forall item, In item items -> Type' item = 1 -> FileName item <> name) ->
  find (is_folder_named name) items = None.
Proof.
  intros H. destruct (find (is_folder_named name) items) as [item|] eqn:E;
    [|reflexivity].
  apply find_some in E as [Hin Hm]. apply is_folder_named_iff in Hm as [Ht Hn].
  exfalso. exact (H item Hin Ht Hn).
Qed.

(** The walk stops at a segment that names no folder: what it returns
    and what it lists. *)
Lemma resolve_stops (pre post : list string) (seg : string) (d0 d : Z) :
  resolve B pre d0 = Some d ->
  find (is_folder_named seg) (listChildren B d) = None ->
  resolve B (pre ++ seg :: post) d0 = None
  /\ listed B (pre ++ seg :: post) d0 = (listed B pre d0 ++ [d])%list.
Proof.
  intros Hpre Hseg. rewrite resolve_app, listed_app, Hpre.
  cbn [resolve listed]. rewrite Hseg. split; reflexivity.
Qed.

Lemma removelast_middle (pre post : list string) (seg : string) :
  post <> [] ->
  removelast (pre ++ seg :: post) = (pre ++ seg :: removelast post)%list.
Proof.
  intros Hpost. rewrite removelast_app by discriminate.
  destruct post; [contradiction | reflexivity].
Qed.

End WithBackend.

End PathFacts.

(* ================================================================== *)
(** ** Listing a sub-directory and resolving a file *)

Import Pan123API Walk WalkFacts PathFacts.

(** C1. With a session and the lock free, [list_folder] on a path whose
    segments all name folders takes the lock, walks to the folder and
    then calls [list], which waits for the lock that [list_folder] still
    holds: the call, and the handler of GET /api/list/{path} around it,
    never return.  The call returns only when a segment names no
    folder, and then with the not-found reply. *)
Theorem list_folder_blocks_on_success
    (B : Backend) (path : string) (w : World) (p : Pan123) :
  pan w = Some p ->
  lock w = false ->
  (forall id,
      resolve B (path_parts path) (parent_file_id p) = Some id ->
      exists w',
        list_folder B path w = Blocked w'
        /\ Handlers.list_subfolder B path w = Blocked w'
        /\ lock w' = true
        /\ cursor w' = Some id)
  /\ (resolve B (path_parts path) (parent_file_id p) = None ->
      exists w', list_folder B path w = Ret not_found w' /\ lock w' = false)
  /\ (forall r w',
         list_folder B path w = Ret r w' ->
         r = not_found
         /\ resolve B (path_parts path) (parent_file_id p) = None).
Proof.
  intros Hp Hl.
  pose proof (list_folder_run B path w p Hp Hl) as Hrun. cbv zeta in Hrun.
  assert (Hp1 : pan (set_lock true w) = Some p) by exact Hp.
  split; [|split].
  - intros id Hid. rewrite Hid in Hrun.
    eexists. split; [exact Hrun|]. split; [|split].
    + unfold Handlers.list_subfolder, try_except, bind. rewrite Hrun.
      reflexivity.
    + rewrite lock_moved. reflexivity.
    + rewrite (cursor_moved B _ p _ Hp1), last_last. reflexivity.
  - intros Hnone. rewrite Hnone in Hrun.
    eexists. split; [exact Hrun | reflexivity].
  - intros r w' Hret. rewrite Hrun in Hret.
    destruct (resolve B (path_parts path) (parent_file_id p));
      [discriminate|].
    split; [congruence | reflexivity].
Qed.

Lemma list_folder_blocks_witness :
  exists w',
    list_folder Sample.backend "a/b" Sample.world = Blocked w'
    /\ Handlers.list_subfolder Sample.backend "a/b" Sample.world = Blocked w'
    /\ lock w' = true
    /\ cursor w' = Some 2.
Proof.
  exact (proj1 (list_folder_blocks_on_success Sample.backend "a/b"
                  Sample.world Sample.handle eq_refl eq_refl) 2 eq_refl).
Defined.

(** C7. When the segments before segment k resolve, to the directory
    [d], and no folder in [d] has exactly the name of segment k, then
    [list_folder] returns the not-found reply after one listing per
    segment up to k, the last of them of [d]: no listing is issued for
    a later segment.  [parsing] does the same when segment k is not the
    last one (the last segment is the file name). *)
Theorem not_found_stops_the_walk
    (B : Backend) (path : string) (w : World) (p : Pan123)
    (pre post : list string) (seg : string) (d : Z) :
  pan w = Some p ->
  lock w = false ->
  path_parts path = (pre ++ seg :: post)%list ->
  resolve B pre (parent_file_id p) = Some d ->
  (forall item, In item (listChildren B d) ->
                Type' item = 1 -> FileName item <> seg) ->
  exists ds,
    length ds = length pre
    /\ (exists w',
           list_folder B path w = Ret not_found w'
           /\ calls w' = (calls w ++ map CallGetDir (ds ++ [d]))%list)
    /\ (post <> [] ->
        exists w',
          parsing B path w = Ret not_found w'
          /\ calls w' = (calls w ++ map CallGetDir (ds ++ [d]))%list).
Proof.
  intros Hp Hl Hparts Hpre Hseg.
  apply find_folder_none in Hseg.
  exists (listed B pre (parent_file_id p)).
  split; [exact (length_listed B pre _ _ Hpre)|]. split.
  - destruct (resolve_stops B pre post seg _ _ Hpre Hseg) as [Hr Hls].
    eexists. split.
    + rewrite (list_folder_run B path w p Hp Hl). cbv zeta.
      rewrite Hparts, Hr. reflexivity.
    + cbn [calls set_lock]. rewrite calls_moved, Hls. reflexivity.
  - intros Hpost.
    destruct (resolve_stops B pre (removelast post) seg _ _ Hpre Hseg)
      as [Hr Hls].
    eexists. split.
    + rewrite (parsing_run B path w p Hp Hl). cbv zeta.
      rewrite Hparts, (removelast_middle pre post seg Hpost), Hr.
      reflexivity.
    + cbn [calls set_lock]. rewrite calls_moved, Hls. reflexivity.
Qed.

Lemma not_found_stops_the_walk_witness :
  exists ds,
    length ds = 1%nat
    /\ (exists w',
           list_folder Sample.backend "a/x/c" Sample.world = Ret not_found w'
           /\ calls w' = map CallGetDir (ds ++ [1]))
    /\ (["c"] <> [] ->
        exists w',
          parsing Sample.backend "a/x/c" Sample.world = Ret not_found w'
          /\ calls w' = map CallGetDir (ds ++ [1])).
Proof.
  refine (not_found_stops_the_walk Sample.backend "a/x/c" Sample.world
            Sample.handle ["a"] ["c"] "x" 1 eq_refl eq_refl eq_refl eq_refl _).
  intros item Hin Ht Hn. cbn in Hin.
  destruct Hin as [<- | [<- | []]]; cbn in Ht, Hn; discriminate.
Defined.

(** C10. In the same situation the directory cursor of the session is
    left at [d], the directory reached by the segments before segment k:
    it is not put back where it was.  A listing of the current directory
    (GET /api/list) made next is the listing of [d]. *)
Theorem not_found_leaves_cursor_moved
    (B : Backend) (path : string) (w : World) (p : Pan123)
    (pre post : list string) (seg : string) (d : Z) :
  pan w = Some p ->
  lock w = false ->
  path_parts path = (pre ++ seg :: post)%list ->
  pre <> [] ->
  resolve B pre (parent_file_id p) = Some d ->
  (forall item, In item (listChildren B d) ->
                Type' item = 1 -> FileName item <> seg) ->
  (exists w',
      list_folder B path w = Ret not_found w'
      /\ cursor w' = Some d
      /\ returned (Handlers.list_files B w')
         = Some (listing (listChildren B d), 200))
  /\ (post <> [] ->
      exists w',
        parsing B path w = Ret not_found w'
        /\ cursor w' = Some d
        /\ returned (Handlers.list_files B w')
           = Some (listing (listChildren B d), 200)).
Proof.
  intros Hp Hl Hparts _ Hpre Hseg.
  apply find_folder_none in Hseg.
  assert (Hp1 : pan (set_lock true w) = Some p) by exact Hp.
  assert (Hnext : forall ds,
             let w' := set_lock false
                         (moved B (set_lock true w) p (ds ++ [d])) in
             cursor w' = Some d
             /\ returned (Handlers.list_files B w')
                = Some (listing (listChildren B d), 200)).
  { intros ds w'.
    destruct (pan_moved B (set_lock true w) p (ds ++ [d]) Hp1)
      as [p' [Hp' Hcur]].
    rewrite last_last in Hcur. split.
    - unfold cursor, w'. cbn [pan set_lock]. rewrite Hp', Hcur. reflexivity.
    - unfold Handlers.list_files, try_except, bind.
      rewrite (list_run B w' p' Hp' eq_refl), Hcur. reflexivity. }
  split.
  - destruct (resolve_stops B pre post seg _ _ Hpre Hseg) as [Hr Hls].
    eexists. split.
    + rewrite (list_folder_run B path w p Hp Hl). cbv zeta.
      rewrite Hparts, Hr, Hls. reflexivity.
    + apply Hnext.
  - intros Hpost.
    destruct (resolve_stops B pre (removelast post) seg _ _ Hpre Hseg)
      as [Hr Hls].
    eexists. split.
    + rewrite (parsing_run B path w p Hp Hl). cbv zeta.
      rewrite Hparts, (removelast_middle pre post seg Hpost), Hr, Hls.
      reflexivity.
    + apply Hnext.
Qed.

Lemma not_found_leaves_cursor_moved_witness :
  (exists w',
      list_folder Sample.backend "a/x/c" Sample.world = Ret not_found w'
      /\ cursor w' = Some 1
      /\ returned (Handlers.list_files Sample.backend w')
         = Some (listing (Sample.tree 1), 200))
  /\ (["c"] <> [] ->
      exists w',
        parsing Sample.backend "a/x/c" Sample.world = Ret not_found w'
        /\ cursor w' = Some 1
        /\ returned (Handlers.list_files Sample.backend w')
           = Some (listing (Sample.tree 1), 200)).
Proof.
  refine (not_found_leaves_cursor_moved Sample.backend "a/x/c" Sample.world
            Sample.handle ["a"] ["c"] "x" 1 eq_refl eq_refl eq_refl _ eq_refl _).
  - discriminate.
  - intros item Hin Ht Hn. cbn in Hin.
    destruct Hin as [<- | [<- | []]]; cbn in Ht, Hn; discriminate.
Defined.

(** What [parsing] does after such a resolution, at the path [///]: it
    reads the last of no segments and raises [IndexError]. *)
Example parsing_slashes_raises :
  exists w',
    parsing Sample.backend "///" Sample.world
    = Raise (mkErr IndexError "list index out of range") w'
    /\ returned (parsing Sample.backend "///" Sample.world) = None.
Proof. eexists. split; reflexivity. Qed.

(** C5.  A path of slashes only (the empty path among them) has no
    segment, and resolving it gives the starting directory unchanged, in
    [list_folder] and in [parsing] alike: the loop over the segments
    returns the directory it started from without looking into any
    folder and without touching the session, and after the call the
    directory cursor of the session is the starting directory, the one
    listing fetched being that of the starting directory. *)
Theorem empty_path_keeps_cursor
    (B : Backend) (path : string) (w : World) (p : Pan123) :
  pan w = Some p ->
  lock w = false ->
  only_slashes path = true ->
  let start := parent_file_id p in
  path_parts path = []
  /\ (forall w0, walk B (path_parts path) start w0 = Ret (Some start) w0)
  /\ (forall w0,
         walk B (removelast (path_parts path)) start w0
         = Ret (Some start) w0)
  /\ (cursor (world_of (list_folder B path w)) = Some start
      /\ calls (world_of (list_folder B path w))
         = (calls w ++ [CallGetDir start])%list)
  /\ (cursor (world_of (parsing B path w)) = Some start
      /\ calls (world_of (parsing B path w))
         = (calls w ++ [CallGetDir start])%list).
Proof.
  intros Hp Hl Hpath start.
  apply path_parts_only_slashes in Hpath.
  assert (Hp1 : pan (set_lock true w) = Some p) by exact Hp.
  rewrite (list_folder_run B path w p Hp Hl),
          (parsing_run B path w p Hp Hl).
  cbv zeta. rewrite Hpath. cbn [removelast resolve listed rev app world_of].
  repeat split.
Qed.

Lemma empty_path_keeps_cursor_witness :
  path_parts "//" = []
  /\ (forall w0, walk Sample.backend (path_parts "//") 0 w0 = Ret (Some 0) w0)
  /\ (forall w0,
         walk Sample.backend (removelast (path_parts "//")) 0 w0
         = Ret (Some 0) w0)
  /\ (cursor (world_of (list_folder Sample.backend "//" Sample.world)) = Some 0
      /\ calls (world_of (list_folder Sample.backend "//" Sample.world))
         = [CallGetDir 0])
  /\ (cursor (world_of (parsing Sample.backend "//" Sample.world)) = Some 0
      /\ calls (world_of (parsing Sample.backend "//" Sample.world))
         = [CallGetDir 0]).
Proof.
  exact (empty_path_keeps_cursor Sample.backend "//" Sample.world
           Sample.handle eq_refl eq_refl eq_refl).
Defined.

(** C4, as stated, on the sample account: the path [a/b/f.bin] resolved
    twice in succession gives the link the first time and the not-found
    reply the second time, because the first resolution left the cursor
    in [a/b] and the second starts there. *)
Lemma resolving_twice_differs :
  let first := parsing Sample.backend "a/b/f.bin" Sample.world in
  let second := parsing Sample.backend "a/b/f.bin" (world_of first) in
  returned first = Some (JObj [ ("url", JStr "https://dl.example/7") ])
  /\ cursor (world_of first) = Some 2
  /\ returned second = Some not_found
  /\ returned first <> returned second.
Proof.
  cbv zeta. repeat split. vm_compute. discriminate.
Qed.

(** C4, amended.  What a resolution gives is fixed by the backend tree,
    the path and the directory it starts from: two calls of
    [list_folder], or of [parsing], on sessions whose cursors are at the
    same directory end the same way and leave the cursor at the same
    directory, whatever else the two sessions hold. *)
Theorem resolution_fixed_by_start
    (B : Backend) (path : string) (w1 w2 : World) (p1 p2 : Pan123) :
  pan w1 = Some p1 -> lock w1 = false ->
  pan w2 = Some p2 -> lock w2 = false ->
  parent_file_id p1 = parent_file_id p2 ->
  (same_result (list_folder B path w1) (list_folder B path w2)
   /\ cursor (world_of (list_folder B path w1))
      = cursor (world_of (list_folder B path w2)))
  /\ (same_result (parsing B path w1) (parsing B path w2)
      /\ cursor (world_of (parsing B path w1))
         = cursor (world_of (parsing B path w2))).
Proof.
  intros Hp1 Hl1 Hp2 Hl2 Hc.
  assert (Hq1 : pan (set_lock true w1) = Some p1) by exact Hp1.
  assert (Hq2 : pan (set_lock true w2) = Some p2) by exact Hp2.
  assert (Hcur : forall ds,
             cursor (moved B (set_lock true w1) p1 ds)
             = cursor (moved B (set_lock true w2) p2 ds)).
  { intros ds. rewrite (cursor_moved B _ p1 ds Hq1),
                       (cursor_moved B _ p2 ds Hq2), Hc. reflexivity. }
  rewrite (list_folder_run B path w1 p1 Hp1 Hl1),
          (list_folder_run B path w2 p2 Hp2 Hl2),
          (parsing_run B path w1 p1 Hp1 Hl1),
          (parsing_run B path w2 p2 Hp2 Hl2).
  cbv zeta. rewrite Hc. split.
  - destruct (resolve B (path_parts path) (parent_file_id p2));
      (split; [reflexivity | apply Hcur]).
  - destruct (resolve B (removelast (path_parts path)) (parent_file_id p2))
      as [id|]; [|split; [reflexivity | apply Hcur]].
    destruct (rev (path_parts path)) as [|file_name rest];
      [split; [reflexivity | apply Hcur]|].
    destruct (find_file file_name 0 (listChildren B id)) as [idx|];
      [|split; [reflexivity | apply Hcur]].
    destruct (nth_error (listChildren B id) idx);
      (split; [reflexivity | apply Hcur]).
Qed.

Lemma resolution_fixed_by_start_witness :
  (same_result (list_folder Sample.backend "a/b" Sample.world)
               (list_folder Sample.backend "a/b" Sample.stale_world)
   /\ cursor (world_of (list_folder Sample.backend "a/b" Sample.world))
      = cursor (world_of (list_folder Sample.backend "a/b" Sample.stale_world)))
  /\ (same_result (parsing Sample.backend "a/b" Sample.world)
                  (parsing Sample.backend "a/b" Sample.stale_world)
      /\ cursor (world_of (parsing Sample.backend "a/b" Sample.world))
         = cursor (world_of (parsing Sample.backend "a/b" Sample.stale_world))).
Proof.
  exact (resolution_fixed_by_start Sample.backend "a/b" Sample.world
           Sample.stale_world Sample.handle Sample.handle
           eq_refl eq_refl eq_refl eq_refl eq_refl).
Defined.

(* ================================================================== *)
(** ** The size formatter *)

Lemma round_half_even_near (n d : Z) :
  0 < d -> 2 * Z.abs (n - d * round_half_even n d) <= d.
Proof.
  intros Hd. unfold round_half_even.
  pose proof (Z.div_mod n d) as Hdm.
  pose proof (Z.mod_pos_bound n d Hd) as Hr.
  destruct (Z.ltb_spec (2 * (n mod d)) d);
    [|destruct (Z.ltb_spec d (2 * (n mod d)));
      [|destruct (Z.even (n / d))]]; lia.
Qed.

Lemma float_of_int_exact (n : Z) : n < 2 ^ 53 -> float_of_int n = n.
Proof.
  intros H. unfold float_of_int.
  destruct (Z.ltb_spec n (2 ^ 53)); [reflexivity | lia].
Qed.

Lemma round_half_even_nonneg (n d : Z) :
  0 <= n -> 0 < d -> 0 <= round_half_even n d.
Proof.
  intros Hn Hd. unfold round_half_even.
  pose proof (Z.div_pos n d Hn Hd).
  destruct (2 * (n mod d) <? d); [lia|].
  destruct (d <? 2 * (n mod d)); [lia|].
  destruct (Z.even (n / d)); lia.
Qed.

Lemma float_of_int_nonneg (n : Z) : 0 <= n -> 0 <= float_of_int n.
Proof.
  intros Hn. unfold float_of_int.
  destruct (n <? 2 ^ 53); [exact Hn|].
  pose proof (Z.pow_nonneg 2 (Z.log2 n - 52) ltac:(lia)) as H2.
  destruct (Z.eq_dec (2 ^ (Z.log2 n - 52)) 0) as [E | E].
  - rewrite E. lia.
  - apply Z.mul_nonneg_nonneg; [|exact H2].
    apply round_half_even_nonneg; lia.
Qed.

(** The two decimals of a fraction below one: the printer of the
    formatter and the digits of the specification agree. *)
Lemma fraction_digits (f : Z) :
  0 <= f < 100 ->
  (if f mod 10 =? 0 then str_of_int (f / 10)
   else if f <? 10 then "0" ++ str_of_int f
   else str_of_int f)
  = str_of_int (f / 10)
    ++ (if f mod 10 =? 0 then "" else str_of_int (f mod 10)).
Proof.
  intros Hf.
  assert (Hlt : (Z.to_nat f < 100)%nat) by lia.
  rewrite <- (Z2Nat.id f) by lia.
  revert Hlt. generalize (Z.to_nat f) as n. intros n Hlt.
  do 100 (destruct n as [|n]; [vm_compute; reflexivity|]).
  lia.
Qed.

(** What the formatter prints for [q] hundredths is the text of the
    specification. *)
Lemma repr_hundredths_two_decimals (q : Z) :
  repr_hundredths q = two_decimals q.
Proof.
  unfold repr_hundredths, two_decimals. cbv zeta.
  pose proof (Z.mod_pos_bound q 100 ltac:(lia)) as Hf.
  rewrite (fraction_digits (q mod 100) Hf).
  replace ((q mod 100) mod 10) with (q mod 10).
  - reflexivity.
  - clear Hf. Z.div_mod_to_equations. lia.
Qed.



(* ================================================================== *)
(** ** Login *)

Module LoginFacts.

Import Pan123API.

(** A login that the backend answers with a status other than 200. *)
Lemma login_failure_run
    (B : Backend) (w : World) (user pass auth token : json) (code : Z) :
  lock w = false ->
  dict_get (JStr "user") (config w) = Some user ->
  dict_get (JStr "password") (config w) = Some pass ->
  dict_get (JStr "authorization") (config w) = Some auth ->
  authenticate B user pass auth = (code, token) ->
  code <> 200 ->
  login B w
  = Raise (mkErr Exception ("登录失败，错误码: " ++ str_of_int code))
          (mkWorld (config w)
                   (Some (mkPan (next_obj w) user pass token 0 []))
                   (settings w) false (S (next_obj w))
                   (calls w ++ [CallLogin (next_obj w)])%list).
Proof.
  intros Hl Hu Hp Ha Hauth Hcode.
  unfold login, with_lock. rewrite Hl.
  unfold bind, config_item, gets, modify, pan_login, the_pan, bind, ret, raise.
  cbn [config set_lock]. rewrite Hu.
  cbn [config set_lock]. rewrite Hp.
  cbn [config set_lock]. rewrite Ha.
  cbn [config set_lock pan set_pan set_next_obj next_obj Pan123_new
       user_name password authorization obj_id].
  rewrite Hauth.
  unfold modify. cbv beta iota.
  apply Z.eqb_neq in Hcode. rewrite Hcode. reflexivity.
Qed.

End LoginFacts.

Import LoginFacts.

(** C2, as stated, on the sample session whose stored password went
    stale: the login fails with the backend's 401, and the handle of the
    session is no longer the one installed before. *)
Lemma failed_login_replaces_handle :
  let o := Pan123API.login Sample.backend Sample.stale_world in
  (exists w', o = Raise (mkErr Exception "登录失败，错误码: 401") w')
  /\ pan (world_of o) <> pan Sample.stale_world.
Proof.
  cbv zeta. split; [eexists; reflexivity|].
  vm_compute. discriminate.
Qed.

(** C2, amended.  When the backend answers the authentication with a
    status other than 200, [login] raises an exception whose text ends
    with that status, and [self.pan] is the handle this very call built
    from the configured user, password and token, authenticated without
    success; it is a new object, not the handle installed before. *)
Theorem failed_login_installs_new_handle
    (B : Backend) (w : World) (user pass auth token : json) (code : Z) :
  lock w = false ->
  dict_get (JStr "user") (config w) = Some user ->
  dict_get (JStr "password") (config w) = Some pass ->
  dict_get (JStr "authorization") (config w) = Some auth ->
  authenticate B user pass auth = (code, token) ->
  code <> 200 ->
  exists w',
    Pan123API.login B w
    = Raise (mkErr Exception ("登录失败，错误码: " ++ str_of_int code)) w'
    /\ pan w' = Some (mkPan (next_obj w) user pass token 0 [])
    /\ (forall p, pan w = Some p -> (obj_id p < next_obj w)%nat ->
                  pan w' <> pan w).
Proof.
  intros Hl Hu Hp Ha Hauth Hcode.
  eexists. split; [exact (login_failure_run B w _ _ _ _ _ Hl Hu Hp Ha Hauth Hcode)|].
  split; [reflexivity|].
  intros p Hpan Hid. cbn [pan]. rewrite Hpan. intros E.
  injection E as E. rewrite <- E in Hid. cbn [obj_id] in Hid. lia.
Qed.

Lemma failed_login_installs_new_handle_witness :
  exists w',
    Pan123API.login Sample.backend Sample.stale_world
    = Raise (mkErr Exception ("登录失败，错误码: " ++ str_of_int 401)) w'
    /\ pan w' = Some (mkPan 1 (JStr "alice") (JStr "wrong") (JStr "") 0 [])
    /\ (forall p, pan Sample.stale_world = Some p -> (obj_id p < 1)%nat ->
                  pan w' <> pan Sample.stale_world).
Proof.
  refine (failed_login_installs_new_handle Sample.backend Sample.stale_world
            (JStr "alice") (JStr "wrong") (JStr "Bearer t1") (JStr "") 401
            eq_refl eq_refl eq_refl eq_refl eq_refl _).
  discriminate.
Defined.

(** C3.  When the backend answers the authentication with a status
    other than 200, [login] raises before it copies the token or saves:
    the settings file, and with it the persisted [authorization], is as
    it was before the attempt, and so is the configuration in memory.
    The handler of POST /api/login then answers 401 with the text of the
    exception; when the request names no user and password, it too
    leaves the settings file as it was. *)
Theorem failed_login_keeps_token
    (B : Backend) (w : World) (user pass auth token : json) (code : Z) :
  lock w = false ->
  dict_get (JStr "user") (config w) = Some user ->
  dict_get (JStr "password") (config w) = Some pass ->
  dict_get (JStr "authorization") (config w) = Some auth ->
  authenticate B user pass auth = (code, token) ->
  code <> 200 ->
  (exists e w',
      Pan123API.login B w = Raise e w'
      /\ settings w' = settings w
      /\ config w' = config w)
  /\ (forall members,
         truthy (match obj_get "username" members with
                 | Some v => v | None => JNull end)
         && truthy (match obj_get "password" members with
                    | Some v => v | None => JNull end) = false ->
         exists w',
           Handlers.login B (JObj members) w
           = Ret (JObj [ ("error", JStr ("登录失败，错误码: " ++ str_of_int code)) ],
                  401) w'
           /\ settings w' = settings w).
Proof.
  intros Hl Hu Hp Ha Hauth Hcode.
  pose proof (login_failure_run B w _ _ _ _ _ Hl Hu Hp Ha Hauth Hcode) as Hrun.
  split.
  - eexists. eexists. split; [exact Hrun|]. split; reflexivity.
  - intros members Hcreds.
    unfold Handlers.login, Handlers.body_get, bind, ret, try_except.
    rewrite Hcreds, Hrun.
    eexists. split; reflexivity.
Qed.

Lemma failed_login_keeps_token_witness :
  (exists e w',
      Pan123API.login Sample.backend Sample.stale_world = Raise e w'
      /\ settings w' = settings Sample.stale_world
      /\ config w' = config Sample.stale_world)
  /\ (forall members,
         truthy (match obj_get "username" members with
                 | Some v => v | None => JNull end)
         && truthy (match obj_get "password" members with
                    | Some v => v | None => JNull end) = false ->
         exists w',
           Handlers.login Sample.backend (JObj members) Sample.stale_world
           = Ret (JObj [ ("error", JStr ("登录失败，错误码: " ++ str_of_int 401)) ],
                  401) w'
           /\ settings w' = settings Sample.stale_world).
Proof.
  refine (failed_login_keeps_token Sample.backend Sample.stale_world
            (JStr "alice") (JStr "wrong") (JStr "Bearer t1") (JStr "") 401
            eq_refl eq_refl eq_refl eq_refl eq_refl _).
  discriminate.
Defined.

(* ================================================================== *)
(** ** Sharing *)

(** C9.  A request to POST /api/share whose body is an object without
    [file_id] is answered 400 with an error body, and nothing else
    happens: the world is as before, so no call reached the backend. *)
Theorem share_without_file_id
    (B : Backend) (w : World) (members : list (string * json)) :
  obj_get "file_id" members = None ->
  Handlers.share_file B (JObj members) w
  = Ret (JObj [ ("error", JStr "缺少file_id参数") ], 400) w.
Proof.
  intros H. unfold Handlers.share_file, Handlers.body_get, bind, ret.
  rewrite H. reflexivity.
Qed.

Lemma share_without_file_id_witness :
  Handlers.share_file Sample.backend (JObj [ ("name", JStr "x") ]) Sample.world
  = Ret (JObj [ ("error", JStr "缺少file_id参数") ], 400) Sample.world.
Proof.
  exact (share_without_file_id Sample.backend Sample.world
           [ ("name", JStr "x") ] eq_refl).
Defined.

(** With a [file_id] the backend is called. *)
Example share_with_file_id :
  exists w',
    Handlers.share_file Sample.backend (JObj [ ("file_id", JStr "7") ])
                        Sample.world
    = Ret (JObj [ ("url", JStr "https://share.example/s1") ], 200) w'
    /\ calls w' = [CallShare (JStr "7")].
Proof. eexists. split; reflexivity. Qed.

(* ================================================================== *)
(** ** Loading the configuration *)

Module ConfigFacts.

Import Pan123API.

Lemma key_eqb_str (k : json) (s : string) :
  key_eqb k (JStr s) = true -> k = JStr s.
Proof.
  destruct k as [| b | z | s' | items | members]; cbn;
    try discriminate; try (destruct b; discriminate).
  intros H. apply String.eqb_eq in H. now subst.
Qed.

Lemma dict_get_set (k k' : string) (v : json) (d : dict) :
  dict_get (JStr k) (dict_set (JStr k') v d)
  = if (k' =? k)%string then Some v else dict_get (JStr k) d.
Proof.
  induction d as [|[k0 v0] d IH].
  - cbn. destruct (k' =? k)%string; reflexivity.
  - cbn [dict_set dict_get].
    destruct (key_eqb k0 (JStr k')) eqn:E0.
    + apply key_eqb_str in E0. subst k0. cbn [dict_get key_eqb].
      destruct (k' =? k)%string; reflexivity.
    + cbn [dict_get]. rewrite IH.
      destruct (key_eqb k0 (JStr k)) eqn:E1; [|reflexivity].
      apply key_eqb_str in E1. subst k0. cbn [key_eqb] in E0.
      destruct (String.eqb_spec k' k) as [->|_]; [|reflexivity].
      rewrite String.eqb_refl in E0. discriminate.
Qed.

(** Merging an object: a member of the document wins over the value
    the dictionary had. *)
Lemma dict_get_merge (k : string) (members : list (string * json)) :
  forall d,
    dict_get (JStr k)
      (fold_left (fun acc kv => dict_set (JStr (fst kv)) (snd kv) acc) members d)
    = match obj_get k members with
      | Some v => Some v
      | None => dict_get (JStr k) d
      end.
Proof.
  induction members as [|[k' v] rest IH]; intros d; [reflexivity|].
  cbn [fold_left fst snd obj_get]. rewrite IH, dict_get_set.
  destruct (obj_get k rest); [reflexivity|].
  destruct (k' =? k)%string; reflexivity.
Qed.

(** Where the loader does what the specification says: no file, a file
    that is not JSON, or a JSON object.  The configuration then has the
    four fields, each with the value of the document or else empty. *)
Lemma load_config_tolerant (w : World) :
  match settings w with
  | None | Some NotJson =>
      _load_config w = Ret tt (set_config default_config w)
  | Some (Document (JObj members)) =>
      exists w',
        _load_config w = Ret tt w'
        /\ forall k, In k ["default-path"; "user"; "password"; "authorization"] ->
             dict_get (JStr k) (config w')
             = Some (match obj_get k members with
                     | Some v => v
                     | None => JStr ""
                     end)
  | _ => True
  end.
Proof.
  destruct (settings w) as [[why | | v]|] eqn:E; try exact I;
    try (unfold _load_config, bind, modify, gets, ret;
         cbn [settings set_config]; rewrite E; reflexivity).
  destruct v as [| | | | |members]; try exact I.
  eexists. split.
  - unfold _load_config, bind, modify, gets, ret.
    cbn [settings set_config config]. rewrite E.
    cbn [dict_update]. reflexivity.
  - intros k Hk. cbn [config set_config]. rewrite dict_get_merge.
    destruct (obj_get k members); [reflexivity|].
    cbn in Hk. destruct Hk as [<- | [<- | [<- | [<- | []]]]]; reflexivity.
Qed.

(** A settings file that is not UTF-8 text stops the loader as well. *)
Example load_config_raises_on_bytes (why : string) :
  returned (_load_config (Sample.boot (Some (NotText why)))) = None
  /\ exists w',
       _load_config (Sample.boot (Some (NotText why)))
       = Raise (mkErr UnicodeDecodeError why) w'.
Proof. split; [reflexivity | eexists; reflexivity]. Qed.

End ConfigFacts.

(** C8, at a settings file that holds the JSON document [42]: the
    document parses, [self.config.update(42)] raises [TypeError], which
    is not the [JSONDecodeError] that [_load_config] passes over, so the
    loader raises and with it [__init__]: the process does not start. *)
Theorem load_config_raises_on_scalar :
  let w := Sample.boot (Some (Document (JInt 42))) in
  (exists w',
      Pan123API._load_config w
      = Raise (mkErr TypeError "'int' object is not iterable") w')
  /\ (exists w',
         Pan123API.__init__ Sample.backend w
         = Raise (mkErr TypeError "'int' object is not iterable") w'
         /\ pan w' = None).
Proof.
  cbv zeta. split; eexists; [reflexivity | split; reflexivity].
Qed.

(* ================================================================== *)
(** ** Resolving a file *)

Module FileFacts.

Import Pan123API Walk WalkFacts PathFacts.

(** The [enumerate] loop answers with an index of the listing. *)
Lemma find_file_bound (name : string) (items : list Item) :
  forall n idx,
    find_file name n items = Some idx ->
    exists item,
      nth_error items (idx - n) = Some item
      /\ is_file_named name item = true
      /\ (n <= idx)%nat.
Proof.
  induction items as [|item rest IH]; intros n idx H; [discriminate|].
  cbn [find_file] in H. fold (is_file_named name item) in H.
  destruct (is_file_named name item) eqn:E.
  - injection H as <-. exists item. rewrite Nat.sub_diag. auto.
  - destruct (IH (S n) idx H) as [it [Hn [Hf Hle]]].
    exists it. split; [|split; [exact Hf | lia]].
    replace (idx - n)%nat with (S (idx - S n)) by lia. exact Hn.
Qed.

(** It answers with the first file of that name. *)
Lemma find_file_first (name : string) (l1 l2 : list Item) (item : Item) :
  (forall i, In i l1 -> is_file_named name i = false) ->
  is_file_named name item = true ->
  forall n, find_file name n (l1 ++ item :: l2) = Some (n + length l1)%nat.
Proof.
  intros Hl1 Hitem.
  induction l1 as [|i l1 IH]; intros n.
  - cbn [app find_file length]. fold (is_file_named name item).
    rewrite Hitem, Nat.add_0_r. reflexivity.
  - cbn [app find_file length]. fold (is_file_named name i).
    rewrite (Hl1 i (or_introl eq_refl)).
    rewrite IH by (intros j Hj; apply Hl1; right; exact Hj).
    f_equal. lia.
Qed.

Lemma find_file_none (name : string) (items : list Item) :
  (forall i, In i items -> is_file_named name i = false) ->
  forall n, find_file name n items = None.
Proof.
  intros H. induction items as [|i rest IH]; intros n; [reflexivity|].
  cbn [find_file]. fold (is_file_named name i).
  rewrite (H i (or_introl eq_refl)).
  apply IH. intros j Hj. apply H. right. exact Hj.
Qed.

End FileFacts.

Import FileFacts.

(** X1.  When the segments before the last resolve to the directory [d]
    and [item] is the first entry of [d] that is not a folder and has
    exactly the name of the last segment, [parsing] returns the link of
    [item] (a folder of the same name listed before it is passed over),
    leaves the cursor at [d] and the lock free, and GET /api/parsing
    answers 200. *)
Theorem parsing_returns_first_file
    (B : Backend) (path : string) (w : World) (p : Pan123)
    (pre : list string) (name : string) (d : Z)
    (l1 l2 : list Item) (item : Item) :
  pan w = Some p ->
  lock w = false ->
  path_parts path = (pre ++ [name])%list ->
  resolve B pre (parent_file_id p) = Some d ->
  listChildren B d = (l1 ++ item :: l2)%list ->
  (forall i, In i l1 -> is_file_named name i = false) ->
  is_file_named name item = true ->
  exists w',
    parsing B path w = Ret (JObj [ ("url", JStr (getLink B item)) ]) w'
    /\ Handlers.get_download_link B path w
       = Ret (JObj [ ("url", JStr (getLink B item)) ], 200) w'
    /\ cursor w' = Some d
    /\ lock w' = false
    /\ calls w'
       = (calls w ++ map CallGetDir (listed B pre (parent_file_id p) ++ [d])
          ++ [CallLink (length l1)])%list.
Proof.
  intros Hp Hl Hparts Hpre Hd Hl1 Hitem.
  assert (Hp1 : pan (set_lock true w) = Some p) by exact Hp.
  pose proof (parsing_run B path w p Hp Hl) as Hrun. cbv zeta in Hrun.
  rewrite Hparts, removelast_last, rev_unit, Hpre, Hd in Hrun.
  rewrite (find_file_first name l1 l2 item Hl1 Hitem 0) in Hrun.
  cbn [Nat.add] in Hrun.
  rewrite nth_error_app2, Nat.sub_diag in Hrun by apply Nat.le_refl.
  cbn [nth_error] in Hrun.
  eexists. split; [exact Hrun|]. split; [|split; [|split]].
  - unfold Handlers.get_download_link, try_except, bind. rewrite Hrun.
    reflexivity.
  - unfold cursor. cbn [pan set_lock log_call].
    destruct (pan_moved B (set_lock true w) p
                (listed B pre (parent_file_id p) ++ [d]) Hp1)
      as [p' [-> Hc]].
    rewrite Hc, last_last. reflexivity.
  - reflexivity.
  - cbn [calls set_lock log_call]. rewrite calls_moved.
    cbn [calls set_lock]. rewrite <- app_assoc. reflexivity.
Qed.

Lemma parsing_returns_first_file_witness :
  exists w',
    parsing Sample.backend "a/b" Sample.world
    = Ret (JObj [ ("url", JStr "https://dl.example/8") ]) w'
    /\ Handlers.get_download_link Sample.backend "a/b" Sample.world
       = Ret (JObj [ ("url", JStr "https://dl.example/8") ], 200) w'
    /\ cursor w' = Some 1
    /\ lock w' = false
    /\ calls w' = [CallGetDir 0; CallGetDir 1; CallLink 0].
Proof.
  refine (parsing_returns_first_file Sample.backend "a/b" Sample.world
            Sample.handle ["a"] "b" 1 [] [mkItem 1 2 "b" 0] (mkItem 0 8 "b" 1024)
            eq_refl eq_refl eq_refl eq_refl eq_refl _ eq_refl).
  intros i [].
Defined.

(** X2.  When the segments before the last resolve to [d] and no entry
    of [d] is a file with exactly the name of the last segment (a folder
    of that name does not count), [parsing] returns the file-not-found
    reply without asking for a link, and GET /api/parsing answers 404. *)
Theorem parsing_file_not_found
    (B : Backend) (path : string) (w : World) (p : Pan123)
    (pre : list string) (name : string) (d : Z) :
  pan w = Some p ->
  lock w = false ->
  path_parts path = (pre ++ [name])%list ->
  resolve B pre (parent_file_id p) = Some d ->
  (forall i, In i (listChildren B d) -> is_file_named name i = false) ->
  exists w',
    parsing B path w = Ret file_not_found w'
    /\ Handlers.get_download_link B path w = Ret (file_not_found, 404) w'
    /\ cursor w' = Some d
    /\ calls w'
       = (calls w
          ++ map CallGetDir (listed B pre (parent_file_id p) ++ [d]))%list.
Proof.
  intros Hp Hl Hparts Hpre Hnone.
  assert (Hp1 : pan (set_lock true w) = Some p) by exact Hp.
  pose proof (parsing_run B path w p Hp Hl) as Hrun. cbv zeta in Hrun.
  rewrite Hparts, removelast_last, rev_unit, Hpre in Hrun.
  rewrite (find_file_none name _ Hnone 0) in Hrun.
  eexists. split; [exact Hrun|]. split; [|split].
  - unfold Handlers.get_download_link, try_except, bind. rewrite Hrun.
    reflexivity.
  - unfold cursor. cbn [pan set_lock].
    destruct (pan_moved B (set_lock true w) p
                (listed B pre (parent_file_id p) ++ [d]) Hp1)
      as [p' [-> Hc]].
    rewrite Hc, last_last. reflexivity.
  - cbn [calls set_lock]. rewrite calls_moved. reflexivity.
Qed.

Lemma parsing_file_not_found_witness :
  exists w',
    parsing Sample.backend "a/b/c" Sample.world = Ret file_not_found w'
    /\ Handlers.get_download_link Sample.backend "a/b/c" Sample.world
       = Ret (file_not_found, 404) w'
    /\ cursor w' = Some 2
    /\ calls w' = [CallGetDir 0; CallGetDir 1; CallGetDir 2].
Proof.
  refine (parsing_file_not_found Sample.backend "a/b/c" Sample.world
            Sample.handle ["a"; "b"] "c" 2
            eq_refl eq_refl eq_refl eq_refl _).
  intros i Hin. cbn in Hin.
  destruct Hin as [<- | [<- | []]]; reflexivity.
Defined.

(** X3.  The index that the [enumerate] loop of [parsing] hands to
    [pan.link] is always a position of the listing, that of a non-folder
    entry with the name asked for.  So, with a session, the lock free
    and a path that has at least one segment, in every run in which the
    calls of the client return, the code of [parsing] raises nothing of
    its own: it returns a link or one of the two not-found replies, and
    GET /api/parsing answers 200 or 404.  (An exception raised inside
    the client is outside the model; the handler answers it with
    500.) *)
Theorem parsing_always_replies
    (B : Backend) (path : string) (w : World) (p : Pan123) :
  pan w = Some p ->
  lock w = false ->
  path_parts path <> [] ->
  (forall name items idx,
      find_file name 0 items = Some idx ->
      (idx < length items)%nat
      /\ exists item,
           nth_error items idx = Some item
           /\ is_file_named name item = true)
  /\ exists r status w',
       parsing B path w = Ret r w'
       /\ Handlers.get_download_link B path w = Ret (r, status) w'
       /\ lock w' = false
       /\ ((exists url, r = JObj [ ("url", JStr url) ] /\ status = 200)
           \/ (r = not_found /\ status = 404)
           \/ (r = file_not_found /\ status = 404)).
Proof.
  intros Hp Hl Hne. split.
  { intros name items idx Hfind.
    destruct (find_file_bound _ _ _ _ Hfind) as [item [Hn [Hf _]]].
    rewrite Nat.sub_0_r in Hn. split.
    - apply nth_error_Some. rewrite Hn. discriminate.
    - exists item. split; assumption. }
  pose proof (parsing_run B path w p Hp Hl) as Hrun. cbv zeta in Hrun.
  assert (Hh : forall r status w',
             parsing B path w = Ret r w' ->
             (if Handlers.has_error r then 404 else 200) = status ->
             Handlers.get_download_link B path w = Ret (r, status) w').
  { intros r status w' Hr <-.
    unfold Handlers.get_download_link, try_except, bind. rewrite Hr.
    destruct (Handlers.has_error r); reflexivity. }
  destruct (resolve B (removelast (path_parts path)) (parent_file_id p))
    as [id|].
  - destruct (rev (path_parts path)) as [|file_name rest] eqn:Erev.
    + exfalso. apply Hne. rewrite <- (rev_involutive (path_parts path)), Erev.
      reflexivity.
    + destruct (find_file file_name 0 (listChildren B id)) as [idx|] eqn:Ef.
      * destruct (find_file_bound _ _ _ _ Ef) as [item [Hn _]].
        rewrite Nat.sub_0_r in Hn. rewrite Hn in Hrun.
        do 3 eexists. split; [exact Hrun|].
        split; [apply (Hh _ _ _ Hrun); reflexivity|].
        split; [reflexivity|]. left. eexists. split; reflexivity.
      * do 3 eexists. split; [exact Hrun|].
        split; [apply (Hh _ _ _ Hrun); reflexivity|].
        split; [reflexivity|]. right. right. split; reflexivity.
  - do 3 eexists. split; [exact Hrun|].
    split; [apply (Hh _ _ _ Hrun); reflexivity|].
    split; [reflexivity|]. right. left. split; reflexivity.
Qed.

Lemma parsing_always_replies_witness :
  (forall name items idx,
      find_file name 0 items = Some idx ->
      (idx < length items)%nat
      /\ exists item,
           nth_error items idx = Some item
           /\ is_file_named name item = true)
  /\ exists r status w',
       parsing Sample.backend "a/b/f.bin" Sample.world = Ret r w'
       /\ Handlers.get_download_link Sample.backend "a/b/f.bin" Sample.world
          = Ret (r, status) w'
       /\ lock w' = false
       /\ ((exists url, r = JObj [ ("url", JStr url) ] /\ status = 200)
           \/ (r = not_found /\ status = 404)
           \/ (r = file_not_found /\ status = 404)).
Proof.
  refine (parsing_always_replies Sample.backend "a/b/f.bin" Sample.world
            Sample.handle eq_refl eq_refl _).
  discriminate.
Defined.

(* ================================================================== *)
(** ** The lock *)

Module LockFacts.

Import Pan123API.

Lemma neutral_ret {A} (a : A) : lock_neutral (ret a).
Proof. intros w. reflexivity. Qed.

Lemma neutral_raise {A} (e : PyErr) : lock_neutral (@raise A e).
Proof. intros w. reflexivity. Qed.

Lemma neutral_gets {A} (f : World -> A) : lock_neutral (gets f).
Proof. intros w. reflexivity. Qed.

Lemma neutral_modify (f : World -> World) :
  (forall w, lock (f w) = lock w) -> lock_neutral (modify f).
Proof. intros H w. apply H. Qed.

Lemma neutral_bind {A C} (c : M A) (k : A -> M C) :
  lock_neutral c -> (forall a, lock_neutral (k a)) -> lock_neutral (bind c k).
Proof.
  intros Hc Hk w. unfold bind. specialize (Hc w).
  destruct (c w) as [a w1 | e w1 | w1]; cbn [world_of] in *;
    [|exact Hc | exact Hc].
  specialize (Hk a w1).
  destruct (k a w1); cbn [world_of] in *; congruence.
Qed.

Lemma neutral_try {A} (c : M A) (h : PyErr -> M A) :
  lock_neutral c -> (forall e, lock_neutral (h e)) ->
  lock_neutral (try_except c h).
Proof.
  intros Hc Hh w. unfold try_except. specialize (Hc w).
  destruct (c w) as [a w1 | e w1 | w1]; cbn [world_of] in *;
    [exact Hc | | exact Hc].
  specialize (Hh e w1).
  destruct (h e w1); cbn [world_of] in *; congruence.
Qed.

Lemma neutral_the_pan (attr : string) : lock_neutral (the_pan attr).
Proof. intros w. unfold the_pan. destruct (pan w); reflexivity. Qed.

Lemma neutral_config_item (key : string) : lock_neutral (config_item key).
Proof.
  intros w. unfold config_item.
  destruct (dict_get (JStr key) (config w)); reflexivity.
Qed.

Lemma neutral_config_set (key : string) (v : json) :
  lock_neutral (config_set key v).
Proof. intros w. reflexivity. Qed.

Create HintDb neutral.

#[export] Hint Resolve neutral_ret neutral_raise neutral_gets neutral_the_pan
  neutral_config_item neutral_config_set : neutral.

Ltac neutral :=
  repeat match goal with
    | |- lock_neutral (bind _ _) => apply neutral_bind; [|intros ?]
    | |- lock_neutral (try_except _ _) => apply neutral_try; [|intros ?]
    | |- lock_neutral (modify _) =>
        apply neutral_modify; intros ?; reflexivity
    | |- lock_neutral _ => solve [auto with neutral]
    end.

Section WithBackend.

Variable B : Backend.

Lemma neutral_pan_login : lock_neutral (pan_login B).
Proof.
  unfold pan_login. apply neutral_bind; [neutral|]. intros p.
  destruct (authenticate B (user_name p) (password p) (authorization p)).
  neutral.
Qed.

Lemma neutral_set_parent (d : Z) : lock_neutral (set_parent_file_id d).
Proof. unfold set_parent_file_id. neutral. Qed.

Lemma neutral_get_dir : lock_neutral (get_dir B).
Proof. unfold get_dir. neutral. Qed.

Lemma neutral_link (idx : nat) : lock_neutral (link B idx).
Proof.
  unfold link. apply neutral_bind; [neutral|]. intros p.
  destruct (nth_error (pan_list p) idx); neutral.
Qed.

Lemma neutral_find_folder (d : Z) (name : string) :
  lock_neutral (_find_folder_by_name B d name).
Proof.
  unfold _find_folder_by_name.
  pose proof (neutral_set_parent d). pose proof neutral_get_dir.
  neutral; assumption.
Qed.

Lemma neutral_walk (parts : list string) :
  forall d, lock_neutral (walk B parts d).
Proof.
  induction parts as [|part rest IH]; intros d; cbn [walk]; [neutral|].
  apply neutral_bind; [apply neutral_find_folder|].
  intros [item|]; [apply IH | neutral].
Qed.

Lemma neutral_validate_parts (parts : list string) :
  forall d, lock_neutral (validate_parts B parts d).
Proof.
  induction parts as [|part rest IH]; intros d; cbn [validate_parts];
    [neutral|].
  apply neutral_bind; [apply neutral_find_folder|].
  intros [item|]; [apply IH | neutral].
Qed.

Lemma neutral_validate : lock_neutral (_validate_default_path B).
Proof.
  unfold _validate_default_path. apply neutral_bind; [neutral|].
  intros v. destruct (truthy v); [|neutral].
  destruct v; try neutral. apply neutral_validate_parts.
Qed.

Lemma neutral_save_config : lock_neutral _save_config.
Proof. unfold _save_config. neutral. Qed.

(** [with lock:] around a body that leaves the lock alone: from a free
    lock the call comes back and the lock is free again. *)
Lemma with_lock_comes_back {A} (body : M A) (w : World) :
  lock_neutral body -> lock w = false ->
  came_back_unlocked (with_lock body w).
Proof.
  intros Hb Hl. unfold with_lock. rewrite Hl.
  specialize (Hb (set_lock true w)).
  destruct (body (set_lock true w)); [reflexivity | reflexivity | exact Hb].
Qed.

(** A call under the lock acts as its body does on a lock that is held:
    it waits. *)
Lemma with_lock_held {A} (body : M A) (w : World) :
  lock w = true -> with_lock body w = Blocked w.
Proof. intros Hl. unfold with_lock. rewrite Hl. reflexivity. Qed.

(** [login] from a free lock. *)
Lemma login_comes_back (w : World) :
  lock w = false -> came_back_unlocked (login B w).
Proof.
  intros Hl. unfold login.
  apply with_lock_comes_back; [|exact Hl].
  pose proof neutral_pan_login. pose proof neutral_save_config.
  pose proof neutral_validate.
  do 6 (apply neutral_bind; [neutral|intros ?]).
  match goal with |- context [negb ?c] => destruct (negb c) end; neutral.
Qed.

End WithBackend.

End LockFacts.

Import LockFacts.

(** X4.  Called with the lock free, [login], [list], [parsing], [share]
    and [reload_session] come back (they return or raise, they do not
    wait) and leave the lock free, whatever the configuration, the
    session and the backend's answers are.  Of the methods modelled only
    [list_folder] can keep the lock. *)
Theorem methods_release_the_lock
    (B : Backend) (w : World) (path : string) (file_id : json) :
  lock w = false ->
  came_back_unlocked (Pan123API.login B w)
  /\ came_back_unlocked (Pan123API.list_ B w)
  /\ came_back_unlocked (Pan123API.parsing B path w)
  /\ came_back_unlocked (Pan123API.share B file_id w)
  /\ came_back_unlocked (Pan123API.reload_session B w).
Proof.
  intros Hl.
  pose proof (neutral_get_dir B) as H4.
  split; [exact (login_comes_back B w Hl)|]. split; [|split; [|split]].
  - unfold Pan123API.list_. apply with_lock_comes_back; [|exact Hl].
    LockFacts.neutral; assumption.
  - unfold Pan123API.parsing. apply with_lock_comes_back; [|exact Hl].
    apply neutral_bind; [LockFacts.neutral|]. intros p.
    apply neutral_bind; [apply neutral_walk|]. intros [id|];
      [|LockFacts.neutral].
    apply neutral_bind; [apply neutral_set_parent|]. intros _.
    apply neutral_bind; [exact H4|]. intros _.
    destruct (rev (Pan123API.path_parts path)) as [|file_name rest];
      [LockFacts.neutral|].
    apply neutral_bind; [LockFacts.neutral|]. intros p'.
    destruct (Pan123API.find_file file_name 0 (pan_list p'));
      [|LockFacts.neutral].
    apply neutral_bind; [apply neutral_link | intros ?; LockFacts.neutral].
  - unfold Pan123API.share. apply with_lock_comes_back; [|exact Hl].
    apply neutral_try; [|intros ?; LockFacts.neutral].
    do 2 (apply neutral_bind; [LockFacts.neutral|intros ?]).
    destruct (share_remote B file_id) as [e|[code url]];
      [LockFacts.neutral|].
    destruct (code =? 200); LockFacts.neutral.
  - unfold Pan123API.reload_session, try_except, bind, ret.
    pose proof (login_comes_back B w Hl) as H.
    destruct (Pan123API.login B w); cbn in *; assumption.
Qed.

Lemma methods_release_the_lock_witness :
  came_back_unlocked (Pan123API.login Sample.backend Sample.stale_world)
  /\ came_back_unlocked (Pan123API.list_ Sample.backend Sample.stale_world)
  /\ came_back_unlocked
       (Pan123API.parsing Sample.backend "a/b" Sample.stale_world)
  /\ came_back_unlocked
       (Pan123API.share Sample.backend (JStr "7") Sample.stale_world)
  /\ came_back_unlocked
       (Pan123API.reload_session Sample.backend Sample.stale_world).
Proof.
  exact (methods_release_the_lock Sample.backend Sample.stale_world "a/b"
           (JStr "7") eq_refl).
Defined.

(* ================================================================== *)
(** ** Listing the current directory *)

Module ListFacts.

Import Pan123API.

Lemma list_loop_from (items : list Item) :
  forall fs gs,
    fold_left
      (fun acc item =>
         if Type' item =? 1
         then (fst acc ++ [folder_entry item], snd acc)%list
         else (fst acc, snd acc ++ [file_entry item])%list)
      items (fs, gs)
    = ((fs ++ map folder_entry (filter (fun i => Type' i =? 1) items))%list,
       (gs ++ map file_entry
                (filter (fun i => negb (Type' i =? 1)) items))%list).
Proof.
  induction items as [|item rest IH]; intros fs gs.
  - cbn. rewrite !app_nil_r. reflexivity.
  - cbn [fold_left filter]. destruct (Type' item =? 1); cbn [fst snd negb map].
    + rewrite IH, <- app_assoc. reflexivity.
    + rewrite IH, <- app_assoc. reflexivity.
Qed.

End ListFacts.

(** X5.  With a session and the lock free, [list] fetches the directory
    under the cursor once and returns the two lists its loop builds by
    appending: the folders in the backend's order, then the files in the
    backend's order.  Every entry of the backend lands in exactly one
    of the two lists, the cursor stays where it was and the lock is
    free afterwards. *)
Theorem list_partitions_in_order
    (B : Backend) (w : World) (p : Pan123) :
  pan w = Some p ->
  lock w = false ->
  let items := listChildren B (parent_file_id p) in
  exists w',
    Pan123API.list_ B w
    = Ret (JObj [ ("folder", JArr (fst (list_loop items)));
                  ("file", JArr (snd (list_loop items))) ]) w'
    /\ fst (list_loop items)
       = map Pan123API.folder_entry (filter (fun i => Type' i =? 1) items)
    /\ snd (list_loop items)
       = map Pan123API.file_entry
             (filter (fun i => negb (Type' i =? 1)) items)
    /\ (length (fst (list_loop items)) + length (snd (list_loop items))
        = length items)%nat
    /\ cursor w' = cursor w
    /\ lock w' = false
    /\ calls w' = (calls w ++ [CallGetDir (parent_file_id p)])%list.
Proof.
  intros Hp Hl items.
  pose proof (ListFacts.list_loop_from items [] []) as Hloop.
  cbn [app] in Hloop. fold (list_loop items) in Hloop.
  eexists. split; [|split; [|split; [|split; [|split; [|split]]]]].
  - rewrite (WalkFacts.list_run B w p Hp Hl), Hloop. reflexivity.
  - rewrite Hloop. reflexivity.
  - rewrite Hloop. reflexivity.
  - rewrite Hloop. cbn [fst snd]. rewrite !length_map. apply filter_length.
  - unfold cursor. cbn [pan set_lock Walk.moved last Walk.at_dir].
    rewrite Hp. reflexivity.
  - reflexivity.
  - reflexivity.
Qed.

Lemma list_partitions_in_order_witness :
  let items := Sample.tree 1 in
  exists w',
    Pan123API.list_ Sample.backend
      (mkWorld Sample.good_config
         (Some (mkPan 0 (JStr "alice") (JStr "secret") (JStr "Bearer t1") 1 []))
         None false 1 [])
    = Ret (JObj [ ("folder", JArr (fst (list_loop items)));
                  ("file", JArr (snd (list_loop items))) ]) w'
    /\ fst (list_loop items)
       = map Pan123API.folder_entry (filter (fun i => Type' i =? 1) items)
    /\ snd (list_loop items)
       = map Pan123API.file_entry
             (filter (fun i => negb (Type' i =? 1)) items)
    /\ (length (fst (list_loop items)) + length (snd (list_loop items))
        = length items)%nat
    /\ cursor w' = Some 1
    /\ lock w' = false
    /\ calls w' = [CallGetDir 1].
Proof.
  exact (list_partitions_in_order Sample.backend
           (mkWorld Sample.good_config
              (Some (mkPan 0 (JStr "alice") (JStr "secret") (JStr "Bearer t1") 1 []))
              None false 1 [])
           _ eq_refl eq_refl).
Defined.

(** X6.  [_find_folder_by_name] returns the first entry of the directory
    that is a folder with exactly the name asked for: a file of that
    name, or a folder whose name differs, listed before it is passed
    over.  It moves the cursor to the directory it looked into. *)
Theorem find_folder_first_match
    (B : Backend) (d : Z) (name : string) (w : World) (p : Pan123)
    (l1 l2 : list Item) (item : Item) :
  pan w = Some p ->
  listChildren B d = (l1 ++ item :: l2)%list ->
  Type' item = 1 ->
  FileName item = name ->
  (forall i, In i l1 -> Type' i = 1 -> FileName i <> name) ->
  exists w',
    Pan123API._find_folder_by_name B d name w = Ret (Some item) w'
    /\ cursor w' = Some d
    /\ calls w' = (calls w ++ [CallGetDir d])%list.
Proof.
  intros Hp Hd Ht Hn Hl1.
  assert (Hfind : find (Pan123API.is_folder_named name) (l1 ++ item :: l2)
                  = Some item).
  { clear Hd. induction l1 as [|i l1 IH].
    - cbn [app find].
      rewrite (proj2 (PathFacts.is_folder_named_iff name item) (conj Ht Hn)).
      reflexivity.
    - cbn [app find].
      destruct (Pan123API.is_folder_named name i) eqn:E.
      + apply PathFacts.is_folder_named_iff in E as [Hti Hni].
        exfalso. exact (Hl1 i (or_introl eq_refl) Hti Hni).
      + apply IH. intros j Hj. apply Hl1. right. exact Hj. }
  rewrite (WalkFacts.find_folder_run B d name w p Hp), Hd, Hfind.
  eexists. split; [reflexivity|]. split; reflexivity.
Qed.

Lemma find_folder_first_match_witness :
  exists w',
    Pan123API._find_folder_by_name Sample.backend 1 "b" Sample.world
    = Ret (Some (mkItem 1 2 "b" 0)) w'
    /\ cursor w' = Some 1
    /\ calls w' = [CallGetDir 1].
Proof.
  refine (find_folder_first_match Sample.backend 1 "b" Sample.world
            Sample.handle [mkItem 0 8 "b" 1024] [] (mkItem 1 2 "b" 0)
            eq_refl eq_refl eq_refl eq_refl _).
  intros i [<- | []] Ht. discriminate Ht.
Defined.

(* ================================================================== *)
(** ** Splitting a path *)

Module SplitFacts.

Import Pan123API.

Lemma split_not_nil (sep : ascii) (s : string) : split sep s <> [].
Proof.
  destruct s as [|c rest]; cbn [split]; [discriminate|].
  destruct (Ascii.eqb c sep); [discriminate|].
  destruct (split sep rest); discriminate.
Qed.

(** [(p1 + sep + p2).split(sep) == p1.split(sep) + p2.split(sep)] *)
Lemma split_app (sep : ascii) (p1 p2 : string) :
  split sep (p1 ++ String sep p2) = (split sep p1 ++ split sep p2)%list.
Proof.
  induction p1 as [|c rest IH].
  - cbn [append split]. rewrite Ascii.eqb_refl. reflexivity.
  - cbn [append split]. destruct (Ascii.eqb c sep); rewrite IH;
      [reflexivity|].
    pose proof (split_not_nil sep rest) as Hne.
    destruct (split sep rest) as [|h t]; [contradiction | reflexivity].
Qed.

(** No piece of a split holds the separator. *)
Lemma split_pieces (sep : ascii) (s : string) :
  Forall (fun p => ~ In sep (list_ascii_of_string p)) (split sep s).
Proof.
  induction s as [|c rest IH]; cbn [split].
  - constructor; [intros [] | constructor].
  - destruct (Ascii.eqb_spec c sep) as [->|Hc].
    + constructor; [intros [] | exact IH].
    + destruct (split sep rest) as [|h t].
      * constructor; [|constructor].
        cbn. intros [E | []]. exact (Hc E).
      * inversion IH as [|? ? Hh Ht]; subst.
        constructor; [|exact Ht].
        cbn [list_ascii_of_string In]. intros [E | Hin];
          [exact (Hc E) | exact (Hh Hin)].
Qed.

(** A string without the separator is its own single piece. *)
Lemma split_whole (sep : ascii) (s : string) :
  ~ In sep (list_ascii_of_string s) -> split sep s = [s].
Proof.
  induction s as [|c rest IH]; intros H; [reflexivity|].
  cbn [split]. cbn [list_ascii_of_string In] in H.
  destruct (Ascii.eqb_spec c sep) as [->|Hc]; [exfalso; apply H; now left|].
  rewrite IH by (intros Hin; apply H; now right). reflexivity.
Qed.

End SplitFacts.

(** X7.  The segments of a path ([[p for p in path.split("/") if p]]):
    a slash between two paths joins their segments, so leading,
    trailing and repeated slashes change nothing; no segment is empty
    and no segment holds a slash; a non-empty name without a slash is
    its own single segment. *)
Theorem path_parts_laws :
  (forall p1 p2,
      Pan123API.path_parts (p1 ++ "/" ++ p2)
      = (Pan123API.path_parts p1 ++ Pan123API.path_parts p2)%list)
  /\ (forall p, Pan123API.path_parts ("/" ++ p) = Pan123API.path_parts p)
  /\ (forall p, Pan123API.path_parts (p ++ "/") = Pan123API.path_parts p)
  /\ (forall p1 p2,
         Pan123API.path_parts (p1 ++ "//" ++ p2)
         = Pan123API.path_parts (p1 ++ "/" ++ p2))
  /\ (forall path,
         Forall (fun s => s <> "" /\ ~ In "/"%char (list_ascii_of_string s))
                (Pan123API.path_parts path))
  /\ (forall s,
         s <> "" -> ~ In "/"%char (list_ascii_of_string s) ->
         Pan123API.path_parts s = [s]).
Proof.
  assert (Hjoin : forall p1 p2,
             Pan123API.path_parts (p1 ++ "/" ++ p2)
             = (Pan123API.path_parts p1 ++ Pan123API.path_parts p2)%list).
  { intros p1 p2. unfold Pan123API.path_parts.
    change ("/" ++ p2) with (String "/" p2).
    rewrite SplitFacts.split_app. apply filter_app. }
  split; [exact Hjoin|]. split; [|split; [|split; [|split]]].
  - intros p. exact (Hjoin "" p).
  - intros p. change "/" with ("/" ++ ""). rewrite Hjoin.
    apply app_nil_r.
  - intros p1 p2. change ("//" ++ p2) with ("/" ++ ("/" ++ p2)).
    rewrite (Hjoin p1 ("/" ++ p2)), (Hjoin p1 p2).
    apply f_equal. exact (Hjoin "" p2).
  - intros path. unfold Pan123API.path_parts.
    pose proof (SplitFacts.split_pieces "/" path) as Hp.
    induction Hp as [|s l Hs _ IH]; [constructor|].
    cbn [filter]. unfold nonempty at 1.
    destruct (String.eqb_spec s "") as [->|Hne]; cbn [negb]; [exact IH|].
    constructor; [split; assumption | exact IH].
  - intros s Hne Hs. unfold Pan123API.path_parts.
    rewrite (SplitFacts.split_whole "/" s Hs). cbn [filter]. unfold nonempty.
    destruct (String.eqb_spec s ""); [contradiction | reflexivity].
Qed.

Lemma path_parts_laws_witness : Pan123API.path_parts "notes.txt" = ["notes.txt"].
Proof.
  refine (proj2 (proj2 (proj2 (proj2 (proj2 path_parts_laws))))
            "notes.txt" _ _).
  - discriminate.
  - cbn. intros H.
    repeat (destruct H as [H | H]; [discriminate H|]). exact H.
Defined.

(* ================================================================== *)
(** ** The number in a formatted size *)

(** X8.  The number that [_format_size] prints before KB or MB lies
    between 1.0 and 1024.0, both reached: a size just below the next
    threshold is printed as 1024.0 of the smaller unit, not as 1.0 of the
    larger one.  A negative count is printed in bytes with its sign. *)
Theorem format_size_number_range :
  (forall b,
      1024 < b <= 1048576 ->
      exists q, Pan123API._format_size b = repr_hundredths q ++ "KB"
                /\ 100 <= q <= 102400)
  /\ (forall b,
         1048576 < b <= 1073741824 ->
         exists q, Pan123API._format_size b = repr_hundredths q ++ "MB"
                   /\ 100 <= q <= 102400)
  /\ (forall b, b < 0 -> Pan123API._format_size b = str_of_int b ++ "B")
  /\ Pan123API._format_size 1048573 = "1024.0KB"
  /\ Pan123API._format_size 1073739000 = "1024.0MB".
Proof.
  split; [|split; [|split; [|split; vm_compute; reflexivity]]].
  - intros b Hb. unfold Pan123API._format_size, truediv, round2.
    cbn [fnum fden].
    destruct (Z.gtb_spec b 1073741824); [lia|].
    destruct (Z.gtb_spec b 1048576); [lia|].
    destruct (Z.gtb_spec b 1024); [|lia].
    eexists. split; [reflexivity|].
    rewrite float_of_int_exact by lia.
    pose proof (round_half_even_near (100 * b) 1024 ltac:(lia)). lia.
  - intros b Hb. unfold Pan123API._format_size, truediv, round2.
    cbn [fnum fden].
    destruct (Z.gtb_spec b 1073741824); [lia|].
    destruct (Z.gtb_spec b 1048576); [|lia].
    eexists. split; [reflexivity|].
    rewrite float_of_int_exact by lia.
    pose proof (round_half_even_near (100 * b) 1048576 ltac:(lia)). lia.
  - intros b Hb. unfold Pan123API._format_size.
    destruct (Z.gtb_spec b 1073741824); [lia|].
    destruct (Z.gtb_spec b 1048576); [lia|].
    destruct (Z.gtb_spec b 1024); [lia | reflexivity].
Qed.

Lemma format_size_number_range_witness :
  exists q, Pan123API._format_size 2048 = repr_hundredths q ++ "KB"
            /\ 100 <= q <= 102400.
Proof.
  apply (proj1 format_size_number_range 2048). lia.
Defined.

(* ================================================================== *)
(** ** Sharing, continued *)

(** X9.  A [file_id] that is present but falsy (0, the empty string,
    false, null, an empty list or object) is treated as missing:
    POST /api/share answers 400 with the missing-parameter text and does
    nothing else. *)
Theorem share_with_falsy_file_id
    (B : Backend) (w : World) (members : list (string * json)) (v : json) :
  obj_get "file_id" members = Some v ->
  truthy v = false ->
  Handlers.share_file B (JObj members) w
  = Ret (JObj [ ("error", JStr "缺少file_id参数") ], 400) w.
Proof.
  intros Hget Hv.
  unfold Handlers.share_file, Handlers.body_get, bind, ret.
  rewrite Hget, Hv. reflexivity.
Qed.

Lemma share_with_falsy_file_id_witness :
  Handlers.share_file Sample.backend (JObj [ ("file_id", JInt 0) ]) Sample.world
  = Ret (JObj [ ("error", JStr "缺少file_id参数") ], 400) Sample.world.
Proof.
  exact (share_with_falsy_file_id Sample.backend Sample.world
           [ ("file_id", JInt 0) ] (JInt 0) eq_refl eq_refl).
Defined.

(** X10.  With a session and the lock free, POST /api/share with a
    truthy [file_id] calls the backend once and answers 200 with the
    share URL when the backend's code is 200, 400 with a fixed text
    when the code is anything else, and 400 with the text of the
    exception when the backend call raises: [share] catches every
    exception itself, so the handler never answers 500. *)
Theorem share_status_mapping
    (B : Backend) (w : World) (p : Pan123)
    (members : list (string * json)) (v : json) :
  pan w = Some p ->
  lock w = false ->
  obj_get "file_id" members = Some v ->
  truthy v = true ->
  Handlers.share_file B (JObj members) w
  = Ret (match share_remote B v with
         | inr (code, url) =>
             if code =? 200 then (JObj [ ("url", url) ], 200)
             else (JObj [ ("error", JStr "分享失败") ], 400)
         | inl e => (JObj [ ("error", JStr (message e)) ], 400)
         end)
        (mkWorld (config w) (pan w) (settings w) false (next_obj w)
                 (calls w ++ [CallShare v])%list).
Proof.
  intros Hp Hl Hget Hv.
  unfold Handlers.share_file, Handlers.body_get, bind, ret.
  rewrite Hget, Hv. cbn [negb].
  unfold try_except, Pan123API.share, with_lock. rewrite Hl.
  unfold try_except, bind, the_pan, modify, ret, raise.
  cbn [pan set_lock]. rewrite Hp.
  destruct (share_remote B v) as [e | [code url]];
    [|destruct (code =? 200)]; rewrite <- Hp; reflexivity.
Qed.

Lemma share_status_mapping_witness :
  Handlers.share_file Sample.backend (JObj [ ("file_id", JStr "7") ])
                      Sample.world
  = Ret (match share_remote Sample.backend (JStr "7") with
         | inr (code, url) =>
             if code =? 200 then (JObj [ ("url", url) ], 200)
             else (JObj [ ("error", JStr "分享失败") ], 400)
         | inl e => (JObj [ ("error", JStr (message e)) ], 400)
         end)
        (mkWorld (config Sample.world) (pan Sample.world)
                 (settings Sample.world) false (next_obj Sample.world)
                 (calls Sample.world ++ [CallShare (JStr "7")])%list).
Proof.
  exact (share_status_mapping Sample.backend Sample.world Sample.handle
           [ ("file_id", JStr "7") ] (JStr "7")
           eq_refl eq_refl eq_refl eq_refl).
Defined.

(** X11.  A request body that is JSON but not an object (a list, a
    string, a number, null) makes the handlers of POST /api/share and
    POST /api/login raise [AttributeError] at their first [data.get],
    outside their [try]: nothing is checked, called or saved. *)
Theorem non_object_body_raises
    (B : Backend) (w : World) (data : json) :
  (forall members, data <> JObj members) ->
  let e := mkErr AttributeError
             ("'" ++ type_name data ++ "' object has no attribute 'get'") in
  Handlers.share_file B data w = Raise e w
  /\ Handlers.login B data w = Raise e w.
Proof.
  intros Hdata e.
  unfold Handlers.share_file, Handlers.login, Handlers.body_get, bind.
  destruct data; try (split; reflexivity).
  exfalso. exact (Hdata _ eq_refl).
Qed.

Lemma non_object_body_raises_witness :
  Handlers.share_file Sample.backend (JArr []) Sample.world
  = Raise (mkErr AttributeError "'list' object has no attribute 'get'")
          Sample.world
  /\ Handlers.login Sample.backend (JArr []) Sample.world
     = Raise (mkErr AttributeError "'list' object has no attribute 'get'")
             Sample.world.
Proof.
  refine (non_object_body_raises Sample.backend Sample.world (JArr []) _).
  discriminate.
Defined.

(* ================================================================== *)
(** ** Reloading the session *)

(** X12.  [reload_session] never raises, and POST /api/reload answers
    200 or 400, never 500: whatever [login] raises is turned into an
    error reply.  When the backend refuses the authentication the reply
    is 400 with the text of the login failure, and the settings file is
    as before. *)
Theorem reload_never_raises
    (B : Backend) (w : World) :
  (match ReloadHandler.reload_session B w with
   | Ret (_, status) _ => status = 200 \/ status = 400
   | Raise _ _ => False
   | Blocked _ => lock w = true
   end)
  /\ (forall user pass auth token code,
         lock w = false ->
         dict_get (JStr "user") (config w) = Some user ->
         dict_get (JStr "password") (config w) = Some pass ->
         dict_get (JStr "authorization") (config w) = Some auth ->
         authenticate B user pass auth = (code, token) ->
         code <> 200 ->
         exists w',
           ReloadHandler.reload_session B w
           = Ret (JObj [ ("error",
                          JStr ("登录失败，错误码: " ++ str_of_int code)) ], 400) w'
           /\ settings w' = settings w).
Proof.
  split.
  - unfold ReloadHandler.reload_session, Pan123API.reload_session,
      try_except, bind, ret.
    destruct (lock w) eqn:Hl.
    + unfold Pan123API.login. rewrite (with_lock_held _ w Hl). reflexivity.
    + pose proof (login_comes_back B w Hl) as H.
      destruct (Pan123API.login B w); cbn in *; auto; contradiction.
  - intros user pass auth token code Hl Hu Hp Ha Hauth Hcode.
    unfold ReloadHandler.reload_session, Pan123API.reload_session,
      try_except, bind, ret.
    rewrite (LoginFacts.login_failure_run B w _ _ _ _ _ Hl Hu Hp Ha Hauth Hcode).
    eexists. split; reflexivity.
Qed.

(* ================================================================== *)
(** ** A login that the backend accepts *)

Module LoginRun.

Import Pan123API Walk WalkFacts PathFacts AfterLogin.

Section WithBackend.

Variable B : Backend.

(** The loop of [_validate_default_path]: it lists what the walk lists
    and raises where the walk gives up. *)
Lemma validate_parts_run (parts : list string) :
  forall (d : Z) (w : World) (p : Pan123),
    pan w = Some p ->
    validate_parts B parts d w
    = match resolve B parts d with
      | Some _ => Ret tt (moved B w p (listed B parts d))
      | None => Raise (mkErr Exception "主目录不合法")
                      (moved B w p (listed B parts d))
      end.
Proof.
  induction parts as [|part rest IH]; intros d w p Hp; [reflexivity|].
  cbn [validate_parts resolve listed]. unfold bind.
  rewrite (find_folder_run B d part w p Hp).
  destruct (find (is_folder_named part) (listChildren B d)) as [item|].
  - rewrite (IH (FileId item) (moved B w p [d]) (at_dir B p d) eq_refl).
    rewrite moved_cons. reflexivity.
  - reflexivity.
Qed.

Lemma saved_get (c : dict) (user pass token : json) :
  dict_get (JStr "authorization") (saved c user pass token) = Some token
  /\ dict_get (JStr "user") (saved c user pass token) = Some user
  /\ dict_get (JStr "password") (saved c user pass token) = Some pass
  /\ dict_get (JStr "default-path") (saved c user pass token)
     = dict_get (JStr "default-path") c.
Proof.
  unfold saved. repeat split; rewrite !ConfigFacts.dict_get_set; reflexivity.
Qed.

Lemma login_accepted_run
    (w : World) (user pass auth token : json) :
  lock w = false ->
  dict_get (JStr "user") (config w) = Some user ->
  dict_get (JStr "password") (config w) = Some pass ->
  dict_get (JStr "authorization") (config w) = Some auth ->
  authenticate B user pass auth = (200, token) ->
  login B w
  = match _validate_default_path B (authenticated w user pass token) with
    | Ret a w' => Ret a (set_lock false w')
    | Raise e w' => Raise e (set_lock false w')
    | Blocked w' => Blocked w'
    end.
Proof.
  intros Hl Hu Hp Ha Hauth.
  unfold login, with_lock. rewrite Hl.
  unfold bind at 1. unfold config_item at 1. cbn [config set_lock]. rewrite Hu.
  unfold bind at 1. unfold config_item at 1. cbn [config set_lock]. rewrite Hp.
  unfold bind at 1. unfold config_item at 1. cbn [config set_lock]. rewrite Ha.
  unfold bind at 1. unfold gets at 1.
  unfold bind at 1. unfold modify at 1.
  unfold bind at 1. unfold pan_login, bind, the_pan.
  cbn [pan set_pan set_next_obj set_lock next_obj Pan123_new
       user_name password authorization obj_id parent_file_id pan_list].
  rewrite Hauth. unfold modify, ret. cbn [negb Z.eqb Pos.eqb].
  unfold config_set, _save_config, bind, the_pan, modify, gets.
  cbn [pan set_pan set_next_obj set_lock next_obj log_call set_config
       set_settings config settings lock calls
       user_name password authorization obj_id parent_file_id pan_list].
  reflexivity.
Qed.

End WithBackend.

End LoginRun.

Import LoginRun AfterLogin.

(** X13.  When the backend answers the authentication with 200 and the
    configured default path is empty, [login] returns: the handle it
    built is installed with the token the backend issued, the
    configuration holds that token and the credentials of the handle,
    the settings file is the configuration as just written, the lock is
    free and the only remote call was the authentication. *)
Theorem login_accepted_persists_token
    (B : Backend) (w : World) (user pass auth token dp : json) :
  lock w = false ->
  dict_get (JStr "user") (config w) = Some user ->
  dict_get (JStr "password") (config w) = Some pass ->
  dict_get (JStr "authorization") (config w) = Some auth ->
  dict_get (JStr "default-path") (config w) = Some dp ->
  truthy dp = false ->
  authenticate B user pass auth = (200, token) ->
  exists w',
    Pan123API.login B w = Ret tt w'
    /\ pan w' = Some (mkPan (next_obj w) user pass token 0 [])
    /\ dict_get (JStr "authorization") (config w') = Some token
    /\ dict_get (JStr "user") (config w') = Some user
    /\ dict_get (JStr "password") (config w') = Some pass
    /\ settings w' = Some (Document (dump (config w')))
    /\ lock w' = false
    /\ calls w' = (calls w ++ [CallLogin (next_obj w)])%list.
Proof.
  intros Hl Hu Hp Ha Hd Hdp Hauth.
  destruct (saved_get (config w) user pass token) as [Sa [Su [Sp Sd]]].
  rewrite (login_accepted_run B w _ _ _ _ Hl Hu Hp Ha Hauth).
  unfold Pan123API._validate_default_path, bind, config_item.
  cbn [config authenticated]. rewrite Sd, Hd, Hdp.
  eexists. split; [reflexivity|].
  cbn [pan config settings lock calls set_lock].
  repeat split; assumption.
Qed.

Lemma login_accepted_persists_token_witness :
  exists w',
    Pan123API.login Sample.backend Sample.world = Ret tt w'
    /\ pan w' = Some (mkPan 1 (JStr "alice") (JStr "secret")
                            (JStr "Bearer t1") 0 [])
    /\ dict_get (JStr "authorization") (config w') = Some (JStr "Bearer t1")
    /\ dict_get (JStr "user") (config w') = Some (JStr "alice")
    /\ dict_get (JStr "password") (config w') = Some (JStr "secret")
    /\ settings w' = Some (Document (dump (config w')))
    /\ lock w' = false
    /\ calls w' = [CallLogin 1].
Proof.
  exact (login_accepted_persists_token Sample.backend Sample.world
           (JStr "alice") (JStr "secret") (JStr "Bearer t1")
           (JStr "Bearer t1") (JStr "")
           eq_refl eq_refl eq_refl eq_refl eq_refl eq_refl eq_refl).
Defined.

(** X14.  When the backend accepts the login and every segment of the
    configured default path names a folder from the account root,
    [login] returns and the directory cursor is left at the folder that
    holds the last segment, not at the folder the last segment names:
    [_find_folder_by_name] moves the cursor to the directory it looks
    into, and nothing enters the folder found last. *)
Theorem login_leaves_cursor_at_parent
    (B : Backend) (w : World) (user pass auth token : json)
    (s : string) (pre : list string) (name : string) (d id : Z) :
  lock w = false ->
  dict_get (JStr "user") (config w) = Some user ->
  dict_get (JStr "password") (config w) = Some pass ->
  dict_get (JStr "authorization") (config w) = Some auth ->
  dict_get (JStr "default-path") (config w) = Some (JStr s) ->
  Pan123API.path_parts s = (pre ++ [name])%list ->
  Walk.resolve B pre 0 = Some d ->
  Walk.resolve B (pre ++ [name]) 0 = Some id ->
  authenticate B user pass auth = (200, token) ->
  exists w',
    Pan123API.login B w = Ret tt w'
    /\ cursor w' = Some d
    /\ lock w' = false
    /\ calls w'
       = (calls w ++ CallLogin (next_obj w)
            :: map CallGetDir (Walk.listed B pre 0 ++ [d]))%list.
Proof.
  intros Hl Hu Hp Ha Hd Hparts Hpre Hall Hauth.
  destruct (saved_get (config w) user pass token) as [_ [_ [_ Sd]]].
  assert (Hs : truthy (JStr s) = true).
  { destruct s; [destruct pre; discriminate Hparts | reflexivity]. }
  assert (Hls : Walk.listed B (pre ++ [name]) 0
                = (Walk.listed B pre 0 ++ [d])%list).
  { rewrite PathFacts.listed_app, Hpre. cbn [Walk.listed].
    destruct (find (Pan123API.is_folder_named name) (listChildren B d));
      reflexivity. }
  rewrite (login_accepted_run B w _ _ _ _ Hl Hu Hp Ha Hauth).
  unfold Pan123API._validate_default_path, bind, config_item.
  cbn [config authenticated]. rewrite Sd, Hd, Hs.
  rewrite (validate_parts_run B _ 0 (authenticated w user pass token)
             (mkPan (next_obj w) user pass token 0 []) eq_refl), Hparts, Hall, Hls.
  eexists. split; [reflexivity|]. split; [|split].
  - unfold cursor. cbn [pan set_lock].
    destruct (WalkFacts.pan_moved B (authenticated w user pass token)
                (mkPan (next_obj w) user pass token 0 [])
                (Walk.listed B pre 0 ++ [d]) eq_refl) as [p' [-> Hc]].
    rewrite Hc, last_last. reflexivity.
  - reflexivity.
  - cbn [calls set_lock]. rewrite WalkFacts.calls_moved.
    cbn [calls authenticated]. rewrite <- app_assoc. reflexivity.
Qed.

Lemma login_leaves_cursor_at_parent_witness :
  exists w',
    Pan123API.login Sample.backend Sample2.rooted_world = Ret tt w'
    /\ cursor w' = Some 1
    /\ lock w' = false
    /\ calls w' = [CallLogin 0; CallGetDir 0; CallGetDir 1].
Proof.
  exact (login_leaves_cursor_at_parent Sample.backend Sample2.rooted_world
           (JStr "alice") (JStr "secret") (JStr "") (JStr "Bearer t1")
           "a/b" ["a"] "b" 1 2
           eq_refl eq_refl eq_refl eq_refl eq_refl eq_refl eq_refl eq_refl
           eq_refl).
Defined.

(** X15.  When the backend accepts the login but a segment of the
    configured default path names no folder, [login] raises the
    invalid-root exception only after it has installed the new handle,
    copied the token and written the settings file: the token stays
    persisted although the call failed.  POST /api/login answers 401
    with the text of the exception. *)
Theorem login_invalid_root_after_save
    (B : Backend) (w : World) (user pass auth token : json)
    (s : string) (pre post : list string) (seg : string) (d : Z) :
  lock w = false ->
  dict_get (JStr "user") (config w) = Some user ->
  dict_get (JStr "password") (config w) = Some pass ->
  dict_get (JStr "authorization") (config w) = Some auth ->
  dict_get (JStr "default-path") (config w) = Some (JStr s) ->
  Pan123API.path_parts s = (pre ++ seg :: post)%list ->
  Walk.resolve B pre 0 = Some d ->
  (forall item, In item (listChildren B d) ->
                Type' item = 1 -> FileName item <> seg) ->
  authenticate B user pass auth = (200, token) ->
  exists w',
    Pan123API.login B w = Raise (mkErr Exception "主目录不合法") w'
    /\ Handlers.login B (JObj []) w
       = Ret (JObj [ ("error", JStr "主目录不合法") ], 401) w'
    /\ dict_get (JStr "authorization") (config w') = Some token
    /\ settings w' = Some (Document (dump (config w')))
    /\ (exists p', pan w' = Some p' /\ obj_id p' = next_obj w
                   /\ authorization p' = token)
    /\ cursor w' = Some d
    /\ lock w' = false.
Proof.
  intros Hl Hu Hp Ha Hd Hparts Hpre Hseg Hauth.
  destruct (saved_get (config w) user pass token) as [Sa [_ [_ Sd]]].
  apply PathFacts.find_folder_none in Hseg.
  destruct (PathFacts.resolve_stops B pre post seg 0 d Hpre Hseg)
    as [Hr Hls].
  assert (Hs : truthy (JStr s) = true).
  { destruct s; [destruct pre; discriminate Hparts | reflexivity]. }
  assert (Hrun : Pan123API.login B w
                 = Raise (mkErr Exception "主目录不合法")
                     (set_lock false
                        (Walk.moved B (authenticated w user pass token)
                           (mkPan (next_obj w) user pass token 0 [])
                           (Walk.listed B pre 0 ++ [d])))).
  { rewrite (login_accepted_run B w _ _ _ _ Hl Hu Hp Ha Hauth).
    unfold Pan123API._validate_default_path, bind, config_item.
    cbn [config authenticated]. rewrite Sd, Hd, Hs.
    rewrite (validate_parts_run B _ 0 (authenticated w user pass token)
             (mkPan (next_obj w) user pass token 0 []) eq_refl), Hparts, Hr, Hls.
    reflexivity. }
  destruct (WalkFacts.pan_moved B (authenticated w user pass token)
              (mkPan (next_obj w) user pass token 0 [])
              (Walk.listed B pre 0 ++ [d]) eq_refl) as [p' [Hp' Hc]].
  rewrite last_last in Hc.
  eexists. split; [exact Hrun|]. split; [|split; [|split; [|split; [|split]]]].
  - unfold Handlers.login, Handlers.body_get, bind, ret, try_except.
    cbn [obj_get truthy andb]. rewrite Hrun. reflexivity.
  - cbn [config set_lock].
    destruct (Walk.listed B pre 0 ++ [d])%list; exact Sa.
  - cbn [config settings set_lock].
    destruct (Walk.listed B pre 0 ++ [d])%list; reflexivity.
  - cbn [pan set_lock].
    destruct (Walk.listed B pre 0 ++ [d])%list as [|d0 r] eqn:E.
    + destruct (Walk.listed B pre 0); discriminate E.
    + eexists. split; [reflexivity|]. split; reflexivity.
  - unfold cursor. cbn [pan set_lock]. rewrite Hp', Hc. reflexivity.
  - reflexivity.
Qed.

Lemma login_invalid_root_after_save_witness :
  exists w',
    Pan123API.login Sample.backend Sample2.lost_world
    = Raise (mkErr Exception "主目录不合法") w'
    /\ Handlers.login Sample.backend (JObj []) Sample2.lost_world
       = Ret (JObj [ ("error", JStr "主目录不合法") ], 401) w'
    /\ dict_get (JStr "authorization") (config w') = Some (JStr "Bearer t1")
    /\ settings w' = Some (Document (dump (config w')))
    /\ (exists p', pan w' = Some p' /\ obj_id p' = 0%nat
                   /\ authorization p' = JStr "Bearer t1")
    /\ cursor w' = Some 1
    /\ lock w' = false.
Proof.
  refine (login_invalid_root_after_save Sample.backend Sample2.lost_world
            (JStr "alice") (JStr "secret") (JStr "") (JStr "Bearer t1")
            "a/x" ["a"] [] "x" 1
            eq_refl eq_refl eq_refl eq_refl eq_refl eq_refl eq_refl _ eq_refl).
  intros item Hin Ht Hn. cbn in Hin.
  destruct Hin as [<- | [<- | []]]; cbn in Ht, Hn; discriminate.
Defined.

(* ================================================================== *)
(** ** Starting the process *)

(** X16.  When there is no settings file, or one that is not JSON, the
    configuration is the default one, and when the backend refuses the
    empty credentials, [__init__] raises the login failure: the process
    does not start, and it leaves no settings file behind. *)
Theorem init_fails_without_credentials
    (B : Backend) (w : World) (code : Z) (token : json) :
  lock w = false ->
  settings w = None \/ settings w = Some NotJson ->
  authenticate B (JStr "") (JStr "") (JStr "") = (code, token) ->
  code <> 200 ->
  exists w',
    Pan123API.__init__ B w
    = Raise (mkErr Exception ("登录失败，错误码: " ++ str_of_int code)) w'
    /\ settings w' = settings w
    /\ config w' = Pan123API.default_config.
Proof.
  intros Hl Hfile Hauth Hcode.
  pose proof (ConfigFacts.load_config_tolerant w) as Hload.
  assert (Hload' : Pan123API._load_config w
                   = Ret tt (set_config Pan123API.default_config w)).
  { destruct Hfile as [E | E]; rewrite E in Hload; exact Hload. }
  unfold Pan123API.__init__, bind at 1. rewrite Hload'.
  unfold bind, modify.
  rewrite (LoginFacts.login_failure_run B
             (set_pan None (set_config Pan123API.default_config w))
             (JStr "") (JStr "") (JStr "") token code
             Hl eq_refl eq_refl eq_refl Hauth Hcode).
  eexists. split; [reflexivity|]. split; reflexivity.
Qed.

Lemma init_fails_without_credentials_witness :
  exists w',
    Pan123API.__init__ Sample.backend (Sample.boot None)
    = Raise (mkErr Exception ("登录失败，错误码: " ++ str_of_int 401)) w'
    /\ settings w' = settings (Sample.boot None)
    /\ config w' = Pan123API.default_config.
Proof.
  refine (init_fails_without_credentials Sample.backend (Sample.boot None)
            401 (JStr "") eq_refl (or_introl eq_refl) eq_refl _).
  discriminate.
Defined.

(** X17.  When the settings file holds a JSON object, the backend
    accepts the credentials it gives (a field that is missing counts as
    the empty string) and its default path is empty or missing,
    [__init__] returns with the session installed, and the settings file
    is rewritten with the token the backend issued. *)
Theorem init_from_settings_object
    (B : Backend) (w : World) (members : list (string * json))
    (token : json) :
  let field := fun k => match obj_get k members with
                        | Some v => v
                        | None => JStr ""
                        end in
  lock w = false ->
  settings w = Some (Document (JObj members)) ->
  truthy (field "default-path") = false ->
  authenticate B (field "user") (field "password") (field "authorization")
  = (200, token) ->
  exists w',
    Pan123API.__init__ B w = Ret tt w'
    /\ pan w' = Some (mkPan (next_obj w) (field "user") (field "password")
                            token 0 [])
    /\ dict_get (JStr "authorization") (config w') = Some token
    /\ settings w' = Some (Document (dump (config w')))
    /\ lock w' = false.
Proof.
  intros field Hl Hfile Hdp Hauth.
  pose proof (ConfigFacts.load_config_tolerant w) as Hload.
  rewrite Hfile in Hload. destruct Hload as [w1 [Hrun Hget]].
  assert (Hw1 : w1 = set_config (config w1) w).
  { revert Hrun. unfold Pan123API._load_config, bind, modify, gets, ret.
    cbn [settings set_config]. rewrite Hfile. cbn [dict_update].
    intros E. injection E as <-. reflexivity. }
  set (w2 := set_pan None w1).
  assert (Hl2 : lock w2 = false) by (unfold w2; rewrite Hw1; exact Hl).
  assert (Hk : forall k,
             In k ["default-path"; "user"; "password"; "authorization"] ->
             dict_get (JStr k) (config w2) = Some (field k)).
  { intros k Hin. exact (Hget k Hin). }
  destruct (saved_get (config w2) (field "user") (field "password") token)
    as [Sa [_ [_ Sd]]].
  unfold Pan123API.__init__, bind at 1. rewrite Hrun.
  unfold bind at 1. unfold modify at 1. fold w2.
  rewrite (login_accepted_run B w2 _ _ _ _ Hl2
             (Hk "user" ltac:(cbn; auto))
             (Hk "password" ltac:(cbn; auto))
             (Hk "authorization" ltac:(cbn; auto)) Hauth).
  unfold Pan123API._validate_default_path, bind, config_item.
  cbn [config authenticated].
  rewrite Sd, (Hk "default-path" ltac:(cbn; auto)), Hdp.
  assert (Hn : next_obj w2 = next_obj w)
    by (unfold w2; rewrite Hw1; reflexivity).
  eexists. split; [reflexivity|].
  cbn [pan config settings lock set_lock authenticated].
  rewrite Hn. repeat split. exact Sa.
Qed.

Lemma init_from_settings_object_witness :
  let members := [ ("user", JStr "alice"); ("password", JStr "secret") ] in
  exists w',
    Pan123API.__init__ Sample.backend
      (Sample.boot (Some (Document (JObj members)))) = Ret tt w'
    /\ pan w' = Some (mkPan 0 (JStr "alice") (JStr "secret")
                            (JStr "Bearer t1") 0 [])
    /\ dict_get (JStr "authorization") (config w') = Some (JStr "Bearer t1")
    /\ settings w' = Some (Document (dump (config w')))
    /\ lock w' = false.
Proof.
  exact (init_from_settings_object Sample.backend
           (Sample.boot (Some (Document
              (JObj [ ("user", JStr "alice"); ("password", JStr "secret") ]))))
           [ ("user", JStr "alice"); ("password", JStr "secret") ]
           (JStr "Bearer t1") eq_refl eq_refl eq_refl eq_refl).
Defined.

(* ================================================================== *)
(** ** The credentials posted to the login handler *)

(** X18.  POST /api/login with a user name and a password stores them
    in the configuration and calls [_save_config], which overwrites them
    with the credentials of the handle before anything reads them: the
    login that follows authenticates with the credentials of the
    handle.  So when the backend refuses those, the request is answered
    401 whatever was posted, and the configuration and the settings
    file hold the credentials of the handle, not the posted ones. *)
Theorem posted_credentials_are_overwritten
    (B : Backend) (w : World) (p : Pan123)
    (members : list (string * json)) (u pw token : json) (code : Z) :
  pan w = Some p ->
  lock w = false ->
  obj_get "username" members = Some u ->
  obj_get "password" members = Some pw ->
  truthy u = true ->
  truthy pw = true ->
  authenticate B (user_name p) (password p) (authorization p) = (code, token) ->
  code <> 200 ->
  exists w',
    Handlers.login B (JObj members) w
    = Ret (JObj [ ("error", JStr ("登录失败，错误码: " ++ str_of_int code)) ],
           401) w'
    /\ dict_get (JStr "user") (config w') = Some (user_name p)
    /\ dict_get (JStr "password") (config w') = Some (password p)
    /\ settings w' = Some (Document (dump (config w')))
    /\ pan w' = Some (mkPan (next_obj w) (user_name p) (password p) token 0 []).
Proof.
  intros Hp Hl Hu Hpw Tu Tpw Hauth Hcode.
  set (c := saved_by_handler (config w) u pw p).
  set (w1 := mkWorld c (pan w) (Some (Document (dump c))) (lock w)
                     (next_obj w) (calls w)).
  assert (Hsave : (if truthy u && truthy pw
                   then config_set "user" u ;;;
                        config_set "password" pw ;;;
                        Pan123API._save_config
                   else ret tt) w = Ret tt w1).
  { rewrite Tu, Tpw. cbn [andb].
    unfold Pan123API._save_config, bind, the_pan, config_set, modify, gets.
    cbn [pan set_config set_settings config]. rewrite Hp. reflexivity. }
  assert (Hc : dict_get (JStr "user") c = Some (user_name p)
               /\ dict_get (JStr "password") c = Some (password p)
               /\ dict_get (JStr "authorization") c = Some (authorization p)).
  { unfold c, saved_by_handler.
    repeat split; rewrite !ConfigFacts.dict_get_set; reflexivity. }
  destruct Hc as [Cu [Cp Ca]].
  unfold Handlers.login, Handlers.body_get.
  unfold bind at 1. unfold ret at 1. rewrite Hu.
  unfold bind at 1. unfold ret at 1. rewrite Hpw.
  unfold bind at 1. rewrite Hsave.
  unfold try_except, bind.
  rewrite (LoginFacts.login_failure_run B w1 _ _ _ _ _ Hl Cu Cp Ca Hauth Hcode).
  eexists. split; [reflexivity|].
  cbn [config settings pan w1]. repeat split; assumption.
Qed.

Lemma posted_credentials_are_overwritten_witness :
  exists w',
    Handlers.login Sample.backend
      (JObj [ ("username", JStr "alice"); ("password", JStr "secret") ])
      Sample2.refused_world
    = Ret (JObj [ ("error", JStr ("登录失败，错误码: " ++ str_of_int 401)) ],
           401) w'
    /\ dict_get (JStr "user") (config w') = Some (JStr "alice")
    /\ dict_get (JStr "password") (config w') = Some (JStr "wrong")
    /\ settings w' = Some (Document (dump (config w')))
    /\ pan w' = Some (mkPan 2 (JStr "alice") (JStr "wrong") (JStr "") 0 []).
Proof.
  refine (posted_credentials_are_overwritten Sample.backend
            Sample2.refused_world Sample2.refused_handle
            [ ("username", JStr "alice"); ("password", JStr "secret") ]
            (JStr "alice") (JStr "secret") (JStr "") 401
            eq_refl eq_refl eq_refl eq_refl eq_refl eq_refl eq_refl _).
  discriminate.
Defined.

(* ================================================================== *)
(** ** Saving and loading the configuration *)

Module RoundTrip.

Import Pan123API.

Lemma key_eqb_str_sym (a b : string) :
  key_eqb (JStr a) (JStr b) = key_eqb (JStr b) (JStr a).
Proof. cbn [key_eqb]. apply String.eqb_sym. Qed.

(** A key that is not in the dictionary is not found. *)
Lemma dict_get_absent (k : string) (d : dict) :
  string_keys d = true ->
  existsb (fun kv => key_eqb (JStr k) (fst kv)) d = false ->
  dict_get (JStr k) d = None.
Proof.
  induction d as [|[k0 v0] rest IH]; intros Hs Hex; [reflexivity|].
  cbn [string_keys forallb fst] in Hs. apply andb_true_iff in Hs as [Hk0 Hs].
  cbn [existsb fst] in Hex. apply orb_false_iff in Hex as [Hne Hex].
  destruct k0 as [| | |s0| |]; try discriminate Hk0.
  cbn [dict_get]. rewrite key_eqb_str_sym, Hne. exact (IH Hs Hex).
Qed.

(** What [json.dump] writes under a key is what the dictionary holds
    under it. *)
Lemma obj_get_dump (k : string) (d : dict) :
  dict_wf d = true -> string_keys d = true ->
  obj_get k (map (fun kv => (dump_key (fst kv), snd kv)) d)
  = dict_get (JStr k) d.
Proof.
  induction d as [|[k0 v0] rest IH]; intros Hwf Hs; [reflexivity|].
  cbn [dict_wf] in Hwf. apply andb_true_iff in Hwf as [Hfresh Hwf].
  apply negb_true_iff in Hfresh.
  pose proof Hs as Hs0.
  cbn [string_keys forallb fst] in Hs. apply andb_true_iff in Hs as [Hk0 Hs].
  destruct k0 as [| | |s0| |]; try discriminate Hk0.
  cbn [map fst snd dump_key obj_get dict_get key_eqb].
  rewrite (IH Hwf Hs).
  destruct (String.eqb_spec s0 k) as [->|Hne].
  - rewrite (dict_get_absent k rest Hs Hfresh). reflexivity.
  - destruct (dict_get (JStr k) rest); reflexivity.
Qed.

Lemma existsb_dict_set (k0 k v : json) (d : dict) :
  key_eqb k0 k = false ->
  existsb (fun kv => key_eqb k0 (fst kv)) (dict_set k v d)
  = existsb (fun kv => key_eqb k0 (fst kv)) d.
Proof.
  intros Hne. induction d as [|[k1 v1] rest IH].
  - cbn. rewrite Hne. reflexivity.
  - cbn [dict_set]. destruct (key_eqb k1 k); cbn [existsb fst];
      [reflexivity | rewrite IH; reflexivity].
Qed.

(** Setting a string key keeps a dictionary of string keys well
    formed. *)
Lemma dict_set_wf (k : string) (v : json) (d : dict) :
  dict_wf d = true -> string_keys d = true ->
  dict_wf (dict_set (JStr k) v d) = true
  /\ string_keys (dict_set (JStr k) v d) = true.
Proof.
  induction d as [|[k0 v0] rest IH]; intros Hwf Hs; [split; reflexivity|].
  cbn [dict_wf] in Hwf. apply andb_true_iff in Hwf as [Hfresh Hwf].
  cbn [string_keys forallb fst] in Hs. apply andb_true_iff in Hs as [Hk0 Hs].
  destruct k0 as [| | |s0| |]; try discriminate Hk0.
  cbn [dict_set].
  destruct (key_eqb (JStr s0) (JStr k)) eqn:E.
  - split.
    + cbn [dict_wf]. rewrite Hfresh, Hwf. reflexivity.
    + cbn [string_keys forallb fst]. exact Hs.
  - destruct (IH Hwf Hs) as [IHwf IHs]. split.
    + cbn [dict_wf]. rewrite (existsb_dict_set _ _ _ _ E), Hfresh, IHwf.
      reflexivity.
    + cbn [string_keys forallb fst]. exact IHs.
Qed.

End RoundTrip.

(** X19.  Saving and loading again gives the configuration back.  For
    a configuration with string keys, each once (as every dictionary
    read from a JSON object is), [_save_config] followed by
    [_load_config] returns, and every key holds what it held after the
    save (a key that was not there holds its default, if it has one);
    the user, the password and the token are those of the handle. *)
Theorem save_then_load_round_trip (w : World) (p : Pan123) :
  pan w = Some p ->
  dict_wf (config w) = true ->
  string_keys (config w) = true ->
  exists w1 w2,
    Pan123API._save_config w = Ret tt w1
    /\ Pan123API._load_config w1 = Ret tt w2
    /\ (forall k,
           dict_get (JStr k) (config w2)
           = match dict_get (JStr k) (config w1) with
             | Some v => Some v
             | None => dict_get (JStr k) Pan123API.default_config
             end)
    /\ dict_get (JStr "user") (config w2) = Some (user_name p)
    /\ dict_get (JStr "password") (config w2) = Some (password p)
    /\ dict_get (JStr "authorization") (config w2) = Some (authorization p)
    /\ settings w2 = settings w1.
Proof.
  intros Hp Hwf Hs.
  set (c := dict_set (JStr "authorization") (authorization p)
              (dict_set (JStr "password") (password p)
                 (dict_set (JStr "user") (user_name p) (config w)))).
  assert (Hc : dict_wf c = true /\ string_keys c = true).
  { unfold c.
    destruct (RoundTrip.dict_set_wf "user" (user_name p) _ Hwf Hs) as [W1 S1].
    destruct (RoundTrip.dict_set_wf "password" (password p) _ W1 S1)
      as [W2 S2].
    exact (RoundTrip.dict_set_wf "authorization" (authorization p) _ W2 S2). }
  destruct Hc as [Wc Sc].
  set (w1 := set_settings (Some (Document (dump c))) (set_config c w)).
  assert (Hsave : Pan123API._save_config w = Ret tt w1).
  { unfold Pan123API._save_config, bind, the_pan, config_set, modify, gets.
    rewrite Hp. reflexivity. }
  set (c2 := fold_left
               (fun acc kv => dict_set (JStr (fst kv)) (snd kv) acc)
               (map (fun kv => (dump_key (fst kv), snd kv)) c)
               Pan123API.default_config).
  assert (Hload : Pan123API._load_config w1 = Ret tt (set_config c2 w1)).
  { unfold Pan123API._load_config, bind, modify, gets, ret. reflexivity. }
  assert (Hget : forall k,
             dict_get (JStr k) c2
             = match dict_get (JStr k) c with
               | Some v => Some v
               | None => dict_get (JStr k) Pan123API.default_config
               end).
  { intros k. unfold c2. rewrite ConfigFacts.dict_get_merge.
    rewrite (RoundTrip.obj_get_dump k c Wc Sc). reflexivity. }
  exists w1, (set_config c2 w1).
  split; [exact Hsave|]. split; [exact Hload|]. split; [exact Hget|].
  cbn [config set_config settings].
  repeat split; rewrite Hget; unfold c;
    rewrite !ConfigFacts.dict_get_set; reflexivity.
Qed.

Lemma save_then_load_round_trip_witness :
  exists w1 w2,
    Pan123API._save_config Sample.stale_world = Ret tt w1
    /\ Pan123API._load_config w1 = Ret tt w2
    /\ (forall k,
           dict_get (JStr k) (config w2)
           = match dict_get (JStr k) (config w1) with
             | Some v => Some v
             | None => dict_get (JStr k) Pan123API.default_config
             end)
    /\ dict_get (JStr "user") (config w2) = Some (JStr "alice")
    /\ dict_get (JStr "password") (config w2) = Some (JStr "secret")
    /\ dict_get (JStr "authorization") (config w2) = Some (JStr "Bearer t1")
    /\ settings w2 = settings w1.
Proof.
  exact (save_then_load_round_trip Sample.stale_world Sample.handle
           eq_refl eq_refl eq_refl).
Defined.

Lemma reload_never_raises_witness :
  exists w',
    ReloadHandler.reload_session Sample.backend Sample.stale_world
    = Ret (JObj [ ("error",
                   JStr ("登录失败，错误码: " ++ str_of_int 401)) ], 400) w'
    /\ settings w' = settings Sample.stale_world.
Proof.
  refine (proj2 (reload_never_raises Sample.backend Sample.stale_world)
            (JStr "alice") (JStr "wrong") (JStr "Bearer t1") (JStr "") 401
            eq_refl eq_refl eq_refl eq_refl eq_refl _).
  discriminate.
Defined.

(* ================================================================== *)
(** ** What the sub-directory handler can answer *)

(** X20.  With a session and the lock free, in every run in which the
    calls of the client return, GET /api/list/{path} has two ways to
    end: when a segment names no folder it answers 404 with the
    not-found reply, the lock free again; when every segment names a
    folder it never answers and the lock stays held.  It never answers
    with a listing.  (An exception raised inside the client is outside
    the model; the handler answers it with 500.) *)
Theorem list_subfolder_never_lists
    (B : Backend) (path : string) (w : World) (p : Pan123) :
  pan w = Some p ->
  lock w = false ->
  (exists w',
      Handlers.list_subfolder B path w
      = Ret (Pan123API.not_found, 404) w'
      /\ lock w' = false
      /\ Walk.resolve B (Pan123API.path_parts path) (parent_file_id p) = None)
  \/ (exists w' id,
         Handlers.list_subfolder B path w = Blocked w'
         /\ lock w' = true
         /\ Walk.resolve B (Pan123API.path_parts path) (parent_file_id p)
            = Some id).
Proof.
  intros Hp Hl.
  pose proof (WalkFacts.list_folder_run B path w p Hp Hl) as Hrun.
  cbv zeta in Hrun.
  unfold Handlers.list_subfolder, try_except, bind. rewrite Hrun.
  destruct (Walk.resolve B (Pan123API.path_parts path) (parent_file_id p))
    as [id|].
  - right. eexists. exists id. split; [reflexivity|].
    split; [|reflexivity]. rewrite WalkFacts.lock_moved. reflexivity.
  - left. eexists. split; [reflexivity|]. split; reflexivity.
Qed.

Lemma list_subfolder_never_lists_witness :
  (exists w',
      Handlers.list_subfolder Sample.backend "a/x" Sample.world
      = Ret (Pan123API.not_found, 404) w'
      /\ lock w' = false
      /\ Walk.resolve Sample.backend (Pan123API.path_parts "a/x") 0 = None)
  \/ (exists w' id,
         Handlers.list_subfolder Sample.backend "a/x" Sample.world
         = Blocked w'
         /\ lock w' = true
         /\ Walk.resolve Sample.backend (Pan123API.path_parts "a/x") 0
            = Some id).
Proof.
  exact (list_subfolder_never_lists Sample.backend "a/x" Sample.world
           Sample.handle eq_refl eq_refl).
Defined.

(* ================================================================== *)
(** ** A default path that is not a string *)

(** X21.  A settings document may give [default-path] a value that is
    not a string.  It loads; at the next login that the backend accepts,
    a truthy value of that kind makes [_validate_default_path] raise
    [AttributeError] at [.split], after the token was copied and the
    settings file written.  POST /api/login answers 401 with the text of
    that exception. *)
Theorem login_default_path_not_a_string
    (B : Backend) (w : World) (user pass auth token dp : json) :
  lock w = false ->
  dict_get (JStr "user") (config w) = Some user ->
  dict_get (JStr "password") (config w) = Some pass ->
  dict_get (JStr "authorization") (config w) = Some auth ->
  dict_get (JStr "default-path") (config w) = Some dp ->
  truthy dp = true ->
  (forall s, dp <> JStr s) ->
  authenticate B user pass auth = (200, token) ->
  let e := mkErr AttributeError
             ("'" ++ type_name dp ++ "' object has no attribute 'split'") in
  exists w',
    Pan123API.login B w = Raise e w'
    /\ Handlers.login B (JObj []) w
       = Ret (JObj [ ("error", JStr (message e)) ], 401) w'
    /\ dict_get (JStr "authorization") (config w') = Some token
    /\ settings w' = Some (Document (dump (config w')))
    /\ lock w' = false.
Proof.
  intros Hl Hu Hp Ha Hd Hdp Hns Hauth e.
  destruct (saved_get (config w) user pass token) as [Sa [_ [_ Sd]]].
  assert (Hrun : Pan123API.login B w
                 = Raise e (set_lock false (authenticated w user pass token))).
  { rewrite (login_accepted_run B w _ _ _ _ Hl Hu Hp Ha Hauth).
    unfold Pan123API._validate_default_path, bind, config_item.
    cbn [config authenticated]. rewrite Sd, Hd, Hdp.
    destruct dp; try reflexivity. exfalso. exact (Hns _ eq_refl). }
  eexists. split; [exact Hrun|]. split; [|split; [|split]].
  - unfold Handlers.login, Handlers.body_get, bind, ret, try_except.
    cbn [obj_get truthy andb]. rewrite Hrun. reflexivity.
  - exact Sa.
  - reflexivity.
  - reflexivity.
Qed.

Lemma login_default_path_not_a_string_witness :
  let w := mkWorld [ (JStr "default-path", JInt 5); (JStr "user", JStr "alice");
                     (JStr "password", JStr "secret");
                     (JStr "authorization", JStr "") ]
                   None None false 0 [] in
  let e := mkErr AttributeError
             ("'" ++ type_name (JInt 5) ++ "' object has no attribute 'split'") in
  exists w',
    Pan123API.login Sample.backend w = Raise e w'
    /\ Handlers.login Sample.backend (JObj []) w
       = Ret (JObj [ ("error", JStr (message e)) ], 401) w'
    /\ dict_get (JStr "authorization") (config w') = Some (JStr "Bearer t1")
    /\ settings w' = Some (Document (dump (config w')))
    /\ lock w' = false.
Proof.
  refine (login_default_path_not_a_string Sample.backend
            (mkWorld [ (JStr "default-path", JInt 5); (JStr "user", JStr "alice");
                       (JStr "password", JStr "secret");
                       (JStr "authorization", JStr "") ]
                     None None false 0 [])
            (JStr "alice") (JStr "secret") (JStr "") (JStr "Bearer t1") (JInt 5)
            eq_refl eq_refl eq_refl eq_refl eq_refl eq_refl _ eq_refl).
  discriminate.
Defined.
